(** * AVR_sleep: the sleep controller of an ATmega328P, as a register machine

    A shallow embedding of [AVR_sleep.h] and [AVR_sleep.cpp].  The memory
    mapped registers the class touches are a record of 8-bit values, the
    single [AVRsleep] object is a record of its four private members, and a
    member function is a computation over both that also logs, in program
    order, every operation its own body performs.

    The sketch is a parameter: the functions behind the two function
    pointers and the handler of the interrupt that ends the sleep are
    arbitrary transformers of the whole machine.  Interrupts taken anywhere
    else, and the clock-cycle budget of the brown-out sequence, are outside
    the model. *)

From Stdlib Require Import ZArith NArith List Bool Lia Btauto.
Import ListNotations.
Local Open Scope Z_scope.

(** ** Fixed-width integers *)

(** Conversion to [uint8_t], as every store to a register performs it. *)
Definition u8 (v : Z) : Z := Z.land v 0xff.

Definition byte (v : Z) : Prop := 0 <= v < 256.

(** A C++ scalar used as a condition. *)
Definition truthy (v : Z) : bool := negb (v =? 0).

(** [_BV(bit)] of avr-libc, and the [1 << n] the source writes by hand. *)
Definition _BV (bit : Z) : Z := Z.shiftl 1 bit.

(** ** The device (avr-libc's io header for the ATmega328P) *)

Inductive reg : Type := PRR | ACSR | MCUSR | SMCR | SREG | MCUCR | WDTCSR.

(** Bit positions. *)
Definition PRADC : Z := 0.
Definition PRUSART0 : Z := 1.
Definition PRSPI : Z := 2.
Definition PRTIM1 : Z := 3.
Definition PRTIM0 : Z := 5.
Definition PRTIM2 : Z := 6.
Definition PRTWI : Z := 7.
Definition ACD : Z := 7.
Definition WDRF : Z := 3.
Definition SE : Z := 0.
Definition SM0 : Z := 1.
Definition SM1 : Z := 2.
Definition SM2 : Z := 3.
Definition BODSE : Z := 5.
Definition BODS : Z := 6.
Definition SREG_I : Z := 7.

Definition SLEEP_MODE_IDLE : Z := Z.shiftl 0 1.
Definition SLEEP_MODE_ADC : Z := Z.shiftl 1 1.
Definition SLEEP_MODE_PWR_DOWN : Z := Z.shiftl 2 1.
Definition SLEEP_MODE_PWR_SAVE : Z := Z.shiftl 3 1.
Definition SLEEP_MODE_STANDBY : Z := Z.shiftl 6 1.
Definition SLEEP_MODE_EXT_STANDBY : Z := Z.shiftl 7 1.

Record registers : Type := mkRegisters {
  r_PRR : Z;
  r_ACSR : Z;
  r_MCUSR : Z;
  r_SMCR : Z;
  r_SREG : Z;
  r_MCUCR : Z;
  r_WDTCSR : Z
}.

Definition rd (r : reg) (io : registers) : Z :=
  match r with
  | PRR => r_PRR io
  | ACSR => r_ACSR io
  | MCUSR => r_MCUSR io
  | SMCR => r_SMCR io
  | SREG => r_SREG io
  | MCUCR => r_MCUCR io
  | WDTCSR => r_WDTCSR io
  end.

Definition wr (r : reg) (v : Z) (io : registers) : registers :=
  match r with
  | PRR => mkRegisters v (r_ACSR io) (r_MCUSR io) (r_SMCR io) (r_SREG io) (r_MCUCR io) (r_WDTCSR io)
  | ACSR => mkRegisters (r_PRR io) v (r_MCUSR io) (r_SMCR io) (r_SREG io) (r_MCUCR io) (r_WDTCSR io)
  | MCUSR => mkRegisters (r_PRR io) (r_ACSR io) v (r_SMCR io) (r_SREG io) (r_MCUCR io) (r_WDTCSR io)
  | SMCR => mkRegisters (r_PRR io) (r_ACSR io) (r_MCUSR io) v (r_SREG io) (r_MCUCR io) (r_WDTCSR io)
  | SREG => mkRegisters (r_PRR io) (r_ACSR io) (r_MCUSR io) (r_SMCR io) v (r_MCUCR io) (r_WDTCSR io)
  | MCUCR => mkRegisters (r_PRR io) (r_ACSR io) (r_MCUSR io) (r_SMCR io) (r_SREG io) v (r_WDTCSR io)
  | WDTCSR => mkRegisters (r_PRR io) (r_ACSR io) (r_MCUSR io) (r_SMCR io) (r_SREG io) (r_MCUCR io) v
  end.

(** ** AVR_sleep.h *)

(** [preSleepFN] and [afterWakeFN]: the address of a sketch function. *)
Definition fnptr : Type := N.
Definition nullptr : fnptr := 0%N.

(** [enum sleepMode : uint8_t]. *)
Inductive sleepMode_t : Type :=
  | SM_IDLE
  | SM_ADC
  | SM_POWER_DOWN
  | SM_POWER_SAVE
  | SM_STANDBY
  | SM_EXT_STANDBY.

Definition sleepMode_value (m : sleepMode_t) : Z :=
  match m with
  | SM_IDLE => SLEEP_MODE_IDLE
  | SM_ADC => SLEEP_MODE_ADC
  | SM_POWER_DOWN => SLEEP_MODE_PWR_DOWN
  | SM_POWER_SAVE => SLEEP_MODE_PWR_SAVE
  | SM_STANDBY => SLEEP_MODE_STANDBY
  | SM_EXT_STANDBY => SLEEP_MODE_EXT_STANDBY
  end.

Definition sleepMode_eqb (a b : sleepMode_t) : bool :=
  sleepMode_value a =? sleepMode_value b.

(** [enum powerMode : uint16_t]: enumerators are combined with [|], so a
    value of the type is any 16-bit number. *)
Definition powerMode_t : Type := Z.

Definition PM_NONE : powerMode_t := 0.
Definition PM_TWI_OFF : powerMode_t := Z.shiftl 1 PRTWI.
Definition PM_TIMER2_OFF : powerMode_t := Z.shiftl 1 PRTIM2.
Definition PM_TIMER0_OFF : powerMode_t := Z.shiftl 1 PRTIM0.
Definition PM_TIMER1_OFF : powerMode_t := Z.shiftl 1 PRTIM1.
Definition PM_SPI_OFF : powerMode_t := Z.shiftl 1 PRSPI.
Definition PM_USART_OFF : powerMode_t := Z.shiftl 1 PRUSART0.
Definition PM_ADC_OFF : powerMode_t := Z.shiftl 1 PRADC.
Definition PM_PRR_OFF : powerMode_t := 0xef.
Definition PM_AC_OFF : powerMode_t := 8.
Definition PM_BOD_OFF : powerMode_t := 9.
Definition PM_WDT_OFF : powerMode_t := 10.
Definition PM_EVERYTHING_OFF : powerMode_t := 0x07ef.

(** The private members of [class AVR_sleep]. *)
Record AVR_sleep : Type := mkAVR_sleep {
  ps : fnptr;
  aw : fnptr;
  copyPRR : Z;
  powerBits : powerMode_t
}.

(** The constructor. *)
Definition AVR_sleep_new : AVR_sleep :=
  {| ps := nullptr; aw := nullptr; copyPRR := 0; powerBits := PM_NONE |}.

(** The registers together with the one global object, [AVRsleep]. *)
Record machine : Type := mkMachine {
  io : registers;
  AVRsleep : AVR_sleep
}.

(** ** Computations *)

(** The two places a sketch function is called from. *)
Inductive slot : Type := PreSleep | AfterWake.

(** What a member function's body does, one entry per statement or avr-libc
    macro, in program order.  What a called sketch function or an interrupt
    handler does inside is not part of the log. *)
Inductive event : Type :=
  | EvWrite (r : reg) (v : Z)
  | EvSetSleepMode (v : Z)
  | EvWdtReset
  | EvWdtDisable
  | EvCli
  | EvSei
  | EvSleepEnable
  | EvSleepBodDisable
  | EvSleepCpu
  | EvSleepDisable
  | EvCall (s : slot) (p : fnptr).

(** A computation runs on the machine and either faults (a call through a
    null function pointer) or yields a value, the new machine and its log. *)
Definition M (A : Type) : Type := machine -> option (A * machine * list event).

Definition ret {A} (a : A) : M A := fun m => Some (a, m, []).

Definition bind {A B} (c : M A) (k : A -> M B) : M B :=
  fun m =>
    match c m with
    | None => None
    | Some (a, m1, t1) =>
        match k a m1 with
        | None => None
        | Some (b, m2, t2) => Some (b, m2, t1 ++ t2)
        end
    end.

Declare Scope avr_scope.
Delimit Scope avr_scope with avr.
Notation "x <- c ;; k" := (bind c (fun x => k))
  (at level 61, c at next level, right associativity) : avr_scope.
Notation "c ;; k" := (bind c (fun _ => k))
  (at level 61, right associativity) : avr_scope.
Local Open Scope avr_scope.

Definition when (b : bool) (c : M unit) : M unit := if b then c else ret tt.

Definition read (r : reg) : M Z := fun m => Some (rd r (io m), m, []).

Definition write (r : reg) (v : Z) : M unit :=
  fun m => Some (tt, mkMachine (wr r (u8 v) (io m)) (AVRsleep m), [EvWrite r (u8 v)]).

Definition member {A} (f : AVR_sleep -> A) : M A :=
  fun m => Some (f (AVRsleep m), m, []).

Definition assign (f : AVR_sleep -> AVR_sleep) : M unit :=
  fun m => Some (tt, mkMachine (io m) (f (AVRsleep m)), []).

Definition set_ps (p : fnptr) (o : AVR_sleep) : AVR_sleep :=
  mkAVR_sleep p (aw o) (copyPRR o) (powerBits o).
Definition set_aw (p : fnptr) (o : AVR_sleep) : AVR_sleep :=
  mkAVR_sleep (ps o) p (copyPRR o) (powerBits o).
Definition set_copyPRR (v : Z) (o : AVR_sleep) : AVR_sleep :=
  mkAVR_sleep (ps o) (aw o) v (powerBits o).
Definition set_powerBits (v : powerMode_t) (o : AVR_sleep) : AVR_sleep :=
  mkAVR_sleep (ps o) (aw o) (copyPRR o) v.

(** An avr-libc macro: its entry in the log and what it leaves in the
    registers. *)
Definition macro (e : event) (f : registers -> registers) : M unit :=
  fun m => Some (tt, mkMachine (f (io m)) (AVRsleep m), [e]).

(** ** avr-libc: sleep.h, wdt.h, interrupt.h (ATmega328P) *)

Definition set_sleep_mode (mode : Z) : M unit :=
  macro (EvSetSleepMode mode)
    (fun r => wr SMCR
       (u8 (Z.lor (Z.land (rd SMCR r)
                     (Z.lnot (Z.lor (Z.lor (_BV SM0) (_BV SM1)) (_BV SM2))))
                  mode)) r).

Definition sleep_enable : M unit :=
  macro EvSleepEnable (fun r => wr SMCR (u8 (Z.lor (rd SMCR r) (_BV SE))) r).

Definition sleep_disable : M unit :=
  macro EvSleepDisable
    (fun r => wr SMCR (u8 (Z.land (rd SMCR r) (Z.lnot (_BV SE)))) r).

(** Sets BODS and BODSE, then writes BODS with BODSE cleared. *)
Definition sleep_bod_disable : M unit :=
  macro EvSleepBodDisable
    (fun r => wr MCUCR
       (u8 (Z.land (Z.lor (rd MCUCR r) (Z.lor (_BV BODS) (_BV BODSE)))
                   (Z.lnot (_BV BODSE)))) r).

Definition cli : M unit :=
  macro EvCli (fun r => wr SREG (u8 (Z.land (rd SREG r) (Z.lnot (_BV SREG_I)))) r).

Definition sei : M unit :=
  macro EvSei (fun r => wr SREG (u8 (Z.lor (rd SREG r) (_BV SREG_I))) r).

(** The [wdr] instruction restarts the watchdog counter, which is no
    register of the model. *)
Definition wdt_reset : M unit := macro EvWdtReset (fun r => r).

(** The timed sequence that ends with zero in WDTCSR; it saves and restores
    SREG around itself. *)
Definition wdt_disable : M unit := macro EvWdtDisable (fun r => wr WDTCSR 0 r).

Section Sketch.

(** The sketch: what the function at each address does when called, and what
    the handler of the interrupt that ends the sleep does before [sleep_cpu]
    returns.  Both may touch the registers and, through its public member
    functions, the [AVRsleep] object. *)
Variable code : fnptr -> machine -> machine.
Variable isr : machine -> machine.

(** A call through a function pointer. *)
Definition call (s : slot) (p : fnptr) : M unit :=
  fun m => if N.eqb p nullptr then None else Some (tt, code p m, [EvCall s p]).

(** The [sleep] instruction: the processor halts, the waking interrupt's
    handler runs, and execution continues behind the instruction.  (A reset
    instead restarts the program.) *)
Definition sleep_cpu : M unit :=
  fun m => Some (tt, isr m, [EvSleepCpu]).

(** ** AVR_sleep.cpp *)

(** [setSleepMode]; [ARDUINO] is the preprocessor symbol of line 31. *)
Definition setSleepMode (ARDUINO : bool)
    (sleepMode : sleepMode_t) (powerOffBits : powerMode_t) : M unit :=
  let mode := sleepMode in
  assign (set_powerBits powerOffBits) ;;
  let mode :=
    if ARDUINO then
      if sleepMode_eqb mode SM_POWER_SAVE then SM_POWER_DOWN
      else if sleepMode_eqb mode SM_EXT_STANDBY then SM_STANDBY
      else mode
    else mode in
  set_sleep_mode (sleepMode_value mode).

(** [goToSleep], lines 69-98: save PRR, gate the PRR clocks, then the
    analog comparator and the watchdog. *)
Definition power_off_peripherals : M unit :=
  prr <- read PRR ;;
  assign (set_copyPRR prr) ;;
  bits <- member powerBits ;;
  write PRR (Z.land bits 0x00ff) ;;
  bits <- member powerBits ;;
  when (truthy (Z.land bits (Z.shiftl 1 PM_AC_OFF)))
    (acsr <- read ACSR ;;
     write ACSR (Z.lor acsr (Z.shiftl 1 ACD))) ;;
  bits <- member powerBits ;;
  when (truthy (Z.land bits (Z.shiftl 1 PM_WDT_OFF)))
    (wdt_reset ;;
     mcusr <- read MCUSR ;;
     write MCUSR (Z.land mcusr (Z.shiftl 1 WDRF)) ;;
     wdt_disable).

(** Lines 103-105. *)
Definition call_preSleep : M unit :=
  f <- member ps ;;
  when (negb (N.eqb f nullptr)) (call PreSleep f).

(** Lines 110-136; yields [oldSREG]. *)
Definition enter_sleep : M Z :=
  oldSREG <- read SREG ;;
  cli ;;
  sleep_enable ;;
  bits <- member powerBits ;;
  when (truthy (Z.land bits (Z.shiftl 1 PM_BOD_OFF))) sleep_bod_disable ;;
  sei ;;
  sleep_cpu ;;
  ret oldSREG.

(** Lines 163-173. *)
Definition wake_up (oldSREG : Z) : M unit :=
  sleep_disable ;;
  saved <- member copyPRR ;;
  write PRR saved ;;
  write SREG oldSREG.

(** Lines 178-180. *)
Definition call_afterWake : M unit :=
  f <- member aw ;;
  when (negb (N.eqb f nullptr)) (call AfterWake f).

(** Everything [goToSleep] does before it looks at [aw]. *)
Definition sleep_and_restore : M unit :=
  power_off_peripherals ;;
  call_preSleep ;;
  oldSREG <- enter_sleep ;;
  wake_up oldSREG.

Definition goToSleep : M unit :=
  sleep_and_restore ;;
  call_afterWake.

Definition attachPreSleep (psfn : fnptr) : M unit := assign (set_ps psfn).

Definition attachWakeUp (awfn : fnptr) : M unit := assign (set_aw awfn).

(** The machine behind a guarded call through [f]. *)
Definition after_call (f : fnptr) (m : machine) : machine :=
  if N.eqb f nullptr then m else code f m.

(** A function of the sketch that does not call back into the controller
    leaves the [AVRsleep] object as it found it. *)
Definition keeps_object (g : machine -> machine) : Prop :=
  forall m, AVRsleep (g m) = AVRsleep m.

(** The same of the function behind [f], when there is one. *)
Definition quiet (f : fnptr) : Prop :=
  f = nullptr \/ keeps_object (code f).

End Sketch.

(** ** SMCR and the sleep mode *)

(** What [set_sleep_mode] leaves in SMCR. *)
Definition smcr_select (s mode : Z) : Z :=
  u8 (Z.lor (Z.land s (Z.lnot (Z.lor (Z.lor (_BV SM0) (_BV SM1)) (_BV SM2)))) mode).

(** The mode Arduino boards get: the replacement for the two modes that need
    Timer 2 running asynchronously, the requested mode otherwise. *)
Definition arduino_mode (m : sleepMode_t) : sleepMode_t :=
  match m with
  | SM_POWER_SAVE => SM_POWER_DOWN
  | SM_EXT_STANDBY => SM_STANDBY
  | other => other
  end.

(** The sleep-mode-select field SM2:0 of SMCR. *)
Definition SM_field (smcr : Z) : Z :=
  Z.land smcr (Z.lor (Z.lor (_BV SM0) (_BV SM1)) (_BV SM2)).

(** ** The log of one goToSleep *)

(** The entries the conditional statements contribute. *)
Definition ac_log (bits acsr : Z) : list event :=
  if truthy (Z.land bits (Z.shiftl 1 PM_AC_OFF))
  then [EvWrite ACSR (u8 (Z.lor acsr (Z.shiftl 1 ACD)))] else [].

Definition wdt_log (bits mcusr : Z) : list event :=
  if truthy (Z.land bits (Z.shiftl 1 PM_WDT_OFF))
  then [EvWdtReset; EvWrite MCUSR (u8 (Z.land mcusr (Z.shiftl 1 WDRF))); EvWdtDisable]
  else [].

Definition bod_log (bits : Z) : list event :=
  if truthy (Z.land bits (Z.shiftl 1 PM_BOD_OFF)) then [EvSleepBodDisable] else [].

Definition call_log (s : slot) (f : fnptr) : list event :=
  if N.eqb f nullptr then [] else [EvCall s f].

(** Program order of lines 69-173, given what the body read on the way:
    [powerBits] before the pre-sleep call ([bits]) and after it ([bits']),
    ACSR, MCUSR, [ps], [copyPRR] on wake-up and [oldSREG]. *)
Definition restore_log (bits acsr mcusr : Z) (f : fnptr) (bits' saved oldSREG : Z)
  : list event :=
  EvWrite PRR (Z.land bits 0x00ff) :: ac_log bits acsr ++ wdt_log bits mcusr
    ++ call_log PreSleep f
    ++ [EvCli; EvSleepEnable] ++ bod_log bits'
    ++ [EvSei; EvSleepCpu; EvSleepDisable; EvWrite PRR (u8 saved); EvWrite SREG (u8 oldSREG)].

(** ** Sequences of attach calls *)

Inductive attach_call : Type :=
  | AttachPreSleep (f : fnptr)
  | AttachWakeUp (f : fnptr).

Definition do_attach (c : attach_call) : M unit :=
  match c with
  | AttachPreSleep f => attachPreSleep f
  | AttachWakeUp f => attachWakeUp f
  end.

(** A sequence of calls, first to last. *)
Fixpoint do_attaches (l : list attach_call) : M unit :=
  match l with
  | [] => ret tt
  | c :: l' => do_attach c ;; do_attaches l'
  end.

Definition attach_frame (m m' : machine) : Prop :=
  io m' = io m
  /\ copyPRR (AVRsleep m') = copyPRR (AVRsleep m)
  /\ powerBits (AVRsleep m') = powerBits (AVRsleep m).

(** ** Reading a log *)

Definition reg_eqb (a b : reg) : bool :=
  match a, b with
  | PRR, PRR | ACSR, ACSR | MCUSR, MCUSR | SMCR, SMCR
  | SREG, SREG | MCUCR, MCUCR | WDTCSR, WDTCSR => true
  | _, _ => false
  end.

Definition is_write (r : reg) (e : event) : bool :=
  match e with EvWrite r' _ => reg_eqb r r' | _ => false end.

Definition is_call (s : slot) (e : event) : bool :=
  match e, s with
  | EvCall PreSleep _, PreSleep | EvCall AfterWake _, AfterWake => true
  | _, _ => false
  end.

Definition is_cli (e : event) : bool :=
  match e with EvCli => true | _ => false end.

Definition is_sei (e : event) : bool :=
  match e with EvSei => true | _ => false end.

Definition is_sleep_enable (e : event) : bool :=
  match e with EvSleepEnable => true | _ => false end.

Definition is_sleep_cpu (e : event) : bool :=
  match e with EvSleepCpu => true | _ => false end.

(** The analog comparator is switched off through ACSR. *)
Definition is_ac (e : event) : bool := is_write ACSR e.

(** The brown-out detector is switched off through [sleep_bod_disable] (or a
    write to MCUCR). *)
Definition is_bod (e : event) : bool :=
  match e with EvSleepBodDisable => true | _ => is_write MCUCR e end.

(** Anything done to the watchdog: [wdt_reset], [wdt_disable], or a write to
    its status flag or its control register. *)
Definition is_wdt (e : event) : bool :=
  match e with
  | EvWdtReset | EvWdtDisable => true
  | _ => is_write MCUSR e || is_write WDTCSR e
  end.

(** How often an entry of some kind occurs. *)
Definition count (p : event -> bool) (t : list event) : nat := length (filter p t).

(** ** Machines and a sketch to run on *)

(** A machine fresh from a watchdog reset that followed power-on: PORF and
    WDRF are set in MCUSR, and the sketch asked for the watchdog only. *)
Definition after_watchdog_reset : machine :=
  mkMachine (mkRegisters 0 0 0x09 0 0x80 0 0x08)
            (mkAVR_sleep nullptr nullptr 0 (Z.shiftl 1 PM_WDT_OFF)).

(** Both of its functions switch every PRR clock back on and leave the
    [AVRsleep] object alone. *)
Definition clocks_on_sketch (f : fnptr) (m : machine) : machine :=
  mkMachine (wr PRR 0 (io m)) (AVRsleep m).

(** Its interrupt handler leaves a mark in PRR. *)
Definition marking_isr (m : machine) : machine :=
  mkMachine (wr PRR 0xff (io m)) (AVRsleep m).

(** Running with the ADC off and interrupts on; functions registered at
    addresses 1 and 2, everything to be powered off. *)
Definition ready_to_sleep : machine :=
  mkMachine (mkRegisters 0x01 0 0 0 0x80 0 0)
            (mkAVR_sleep 1%N 2%N 0 PM_EVERYTHING_OFF).

(** ** The registers along one goToSleep *)

(** A function of the sketch that leaves register [r] as it found it. *)
Definition keeps_reg (r : reg) (g : machine -> machine) : Prop :=
  forall m, rd r (io (g m)) = rd r (io m).

(** The same of the function behind [f], when there is one. *)
Definition hook_keeps_reg (code : fnptr -> machine -> machine) (r : reg) (f : fnptr)
  : Prop :=
  f = nullptr \/ keeps_reg r (code f).

(** Register [r] behind lines 69-98, entered with [powerBits = bits] and
    registers [rs]. *)
Definition powered_off (bits : Z) (rs : registers) (r : reg) : Z :=
  match r with
  | PRR => Z.land bits 0x00ff
  | ACSR =>
      if truthy (Z.land bits (Z.shiftl 1 PM_AC_OFF))
      then u8 (Z.lor (rd ACSR rs) (Z.shiftl 1 ACD)) else rd ACSR rs
  | MCUSR =>
      if truthy (Z.land bits (Z.shiftl 1 PM_WDT_OFF))
      then u8 (Z.land (rd MCUSR rs) (Z.shiftl 1 WDRF)) else rd MCUSR rs
  | WDTCSR =>
      if truthy (Z.land bits (Z.shiftl 1 PM_WDT_OFF)) then 0 else rd WDTCSR rs
  | _ => rd r rs
  end.

(** Register [r] at the sleep instruction, lines 110-136 entered with
    [powerBits = bits] and registers [rs]. *)
Definition asleep (bits : Z) (rs : registers) (r : reg) : Z :=
  match r with
  | SREG =>
      u8 (Z.lor (u8 (Z.land (rd SREG rs) (Z.lnot (_BV SREG_I)))) (_BV SREG_I))
  | SMCR => u8 (Z.lor (rd SMCR rs) (_BV SE))
  | MCUCR =>
      if truthy (Z.land bits (Z.shiftl 1 PM_BOD_OFF))
      then u8 (Z.land (Z.lor (rd MCUCR rs) (Z.lor (_BV BODS) (_BV BODSE)))
                      (Z.lnot (_BV BODSE)))
      else rd MCUCR rs
  | _ => rd r rs
  end.

(** Register [r] behind lines 163-173, entered with [copyPRR = saved],
    [oldSREG] and registers [rs]. *)
Definition woken (saved oldSREG : Z) (rs : registers) (r : reg) : Z :=
  match r with
  | PRR => u8 saved
  | SREG => u8 oldSREG
  | SMCR => u8 (Z.land (rd SMCR rs) (Z.lnot (_BV SE)))
  | _ => rd r rs
  end.

(** An entry of the log that is no call through a null pointer. *)
Definition call_target_ok (e : event) : bool :=
  match e with
  | EvCall _ f => negb (N.eqb f nullptr)
  | _ => true
  end.

(** ** Bits *)

Lemma u8_spec (v i : Z) : 0 <= i -> Z.testbit (u8 v) i = Z.testbit v i && (i <? 8).
Proof.
  intros Hi. unfold u8. change 0xff with (Z.ones 8).
  rewrite Z.land_spec, Z.testbit_ones_nonneg by lia. reflexivity.
Qed.

Lemma u8_byte (v : Z) : byte (u8 v).
Proof.
  unfold byte, u8. change 0xff with (Z.ones 8).
  rewrite Z.land_ones by lia. apply Z.mod_pos_bound. lia.
Qed.

Lemma u8_of_byte (v : Z) : byte v -> u8 v = v.
Proof.
  unfold byte, u8. intros Hv. change 0xff with (Z.ones 8).
  rewrite Z.land_ones by lia. apply Z.mod_small. exact Hv.
Qed.

Lemma u8_low_byte (v : Z) : u8 (Z.land v 0x00ff) = Z.land v 0x00ff.
Proof. apply u8_of_byte. apply (u8_byte v). Qed.

Lemma BV_spec (n i : Z) : 0 <= n -> Z.testbit (Z.shiftl 1 n) i = (n =? i).
Proof.
  intros Hn. rewrite Z.shiftl_1_l. apply Z.pow2_bits_eqb. exact Hn.
Qed.

(** The test [bits & (1 << n)] of the source looks at bit [n]. *)
Lemma truthy_flag (bits n : Z) :
  0 <= n -> truthy (Z.land bits (Z.shiftl 1 n)) = Z.testbit bits n.
Proof.
  intros Hn. unfold truthy.
  destruct (Z.testbit bits n) eqn:Hb.
  - assert (H : Z.testbit (Z.land bits (Z.shiftl 1 n)) n = true).
    { rewrite Z.land_spec, Hb, BV_spec, Z.eqb_refl by exact Hn. reflexivity. }
    destruct (Z.eqb_spec (Z.land bits (Z.shiftl 1 n)) 0) as [E|_]; [|reflexivity].
    rewrite E, Z.bits_0 in H. discriminate.
  - assert (E : Z.land bits (Z.shiftl 1 n) = 0).
    { apply Z.bits_inj'. intros i Hi.
      rewrite Z.land_spec, BV_spec, Z.bits_0 by exact Hn.
      destruct (Z.eqb_spec n i) as [->|_]; [rewrite Hb|]; btauto. }
    rewrite E. reflexivity.
Qed.

(** Bit-by-bit equality of two byte-sized expressions over one unknown [s]:
    above bit 7 by [hi], below it one position at a time. *)
Ltac low_bits i Hi :=
  assert (Hcases : i = 0 \/ i = 1 \/ i = 2 \/ i = 3 \/ i = 4 \/ i = 5 \/ i = 6 \/ i = 7)
    by lia;
  clear Hi;
  repeat (destruct Hcases as [->|Hcases]); try subst i;
  repeat first [ rewrite u8_spec by lia | rewrite Z.land_spec | rewrite Z.lor_spec
               | rewrite Z.lnot_spec by lia ];
  match goal with
  | |- context [Z.testbit ?s ?k] =>
      is_var s; generalize (Z.testbit s k); intros []; reflexivity
  | |- _ => reflexivity
  end.

Lemma rd_wr_same (r : reg) (v : Z) (rs : registers) : rd r (wr r v rs) = v.
Proof. destruct r; reflexivity. Qed.

Lemma rd_wr_other (r r' : reg) (v : Z) (rs : registers) :
  r <> r' -> rd r (wr r' v rs) = rd r rs.
Proof. destruct r, r'; intros H; try reflexivity; contradiction H; reflexivity. Qed.

Lemma wr_wr_same (r : reg) (v v' : Z) (rs : registers) :
  wr r v (wr r v' rs) = wr r v rs.
Proof. destruct r; reflexivity. Qed.

(** ** setSleepMode *)

Lemma setSleepMode_run (ARDUINO : bool) (sm : sleepMode_t) (bits : powerMode_t) (m : machine) :
  let c := if ARDUINO then arduino_mode sm else sm in
  setSleepMode ARDUINO sm bits m =
    Some (tt,
          mkMachine (wr SMCR (smcr_select (rd SMCR (io m)) (sleepMode_value c)) (io m))
                    (set_powerBits bits (AVRsleep m)),
          [EvSetSleepMode (sleepMode_value c)]).
Proof.
  destruct ARDUINO, sm; reflexivity.
Qed.

Lemma SM_field_select (s : Z) (c : sleepMode_t) :
  SM_field (smcr_select s (sleepMode_value c)) = sleepMode_value c.
Proof.
  unfold SM_field, smcr_select.
  apply Z.bits_inj'. intros i Hi.
  destruct (Z.lt_ge_cases i 8) as [Hlo|Hhi].
  - destruct c; low_bits i Hi.
  - rewrite Z.land_spec, u8_spec by lia.
    replace (i <? 8) with false by (symmetry; apply Z.ltb_ge; lia).
    rewrite andb_false_r. symmetry.
    apply Z.bits_above_log2; [destruct c; cbv; discriminate|].
    eapply Z.le_lt_trans with (m := 3); [destruct c; cbv; discriminate | lia].
Qed.

Lemma smcr_select_idem (s v : Z) : smcr_select (smcr_select s v) v = smcr_select s v.
Proof.
  unfold smcr_select at 1 3. set (t := smcr_select s v).
  apply Z.bits_inj'. intros i Hi. subst t. unfold smcr_select.
  repeat first [ rewrite u8_spec by lia | rewrite Z.land_spec | rewrite Z.lor_spec ].
  btauto.
Qed.

(** ** Running computations *)

Lemma bind_run {A B} (c : M A) (k : A -> M B) m a m1 t1 b m2 t2 :
  c m = Some (a, m1, t1) ->
  k a m1 = Some (b, m2, t2) ->
  bind c k m = Some (b, m2, t1 ++ t2).
Proof. intros Hc Hk. unfold bind. rewrite Hc, Hk. reflexivity. Qed.

(** ** One run of goToSleep *)

Section Cycle.

Variable code : fnptr -> machine -> machine.
Variable isr : machine -> machine.

Lemma after_call_quiet (f : fnptr) (m : machine) :
  quiet code f -> AVRsleep (after_call code f m) = AVRsleep m.
Proof.
  unfold after_call. intros [->|H]; [reflexivity|].
  destruct (N.eqb f nullptr); [reflexivity | apply H].
Qed.

Lemma power_off_peripherals_run (m : machine) :
  let bits := powerBits (AVRsleep m) in
  exists rs,
    power_off_peripherals m =
      Some (tt, mkMachine rs (set_copyPRR (rd PRR (io m)) (AVRsleep m)),
            EvWrite PRR (Z.land bits 0x00ff)
              :: ac_log bits (rd ACSR (io m)) ++ wdt_log bits (rd MCUSR (io m)))
    /\ rd PRR rs = Z.land bits 0x00ff
    /\ rd SREG rs = rd SREG (io m)
    /\ rd MCUSR rs =
         if truthy (Z.land bits (Z.shiftl 1 PM_WDT_OFF))
         then u8 (Z.land (rd MCUSR (io m)) (Z.shiftl 1 WDRF))
         else rd MCUSR (io m).
Proof.
  intros bits. unfold power_off_peripherals, ac_log, wdt_log.
  cbv [bind read assign member write when macro wdt_reset wdt_disable ret].
  cbn [io AVRsleep powerBits set_copyPRR]. fold bits.
  rewrite u8_low_byte.
  destruct (truthy (Z.land bits (Z.shiftl 1 PM_AC_OFF)));
    cbn [io AVRsleep powerBits set_copyPRR]; fold bits;
    destruct (truthy (Z.land bits (Z.shiftl 1 PM_WDT_OFF)));
    cbn [io AVRsleep app]; eexists; (split; [reflexivity|]);
    repeat split; reflexivity.
Qed.

Lemma call_guarded_run (s : slot) (f : fnptr) (m : machine) :
  when (negb (N.eqb f nullptr)) (call code s f) m
  = Some (tt, after_call code f m, call_log s f).
Proof.
  unfold when, call, after_call, call_log, ret.
  destruct (N.eqb f nullptr); reflexivity.
Qed.

Lemma call_preSleep_run (m : machine) :
  call_preSleep code m
  = Some (tt, after_call code (ps (AVRsleep m)) m, call_log PreSleep (ps (AVRsleep m))).
Proof.
  unfold call_preSleep, bind, member. rewrite call_guarded_run. reflexivity.
Qed.

Lemma call_afterWake_run (m : machine) :
  call_afterWake code m
  = Some (tt, after_call code (aw (AVRsleep m)) m, call_log AfterWake (aw (AVRsleep m))).
Proof.
  unfold call_afterWake, bind, member. rewrite call_guarded_run. reflexivity.
Qed.

Lemma enter_sleep_run (m : machine) :
  exists rs,
    enter_sleep isr m =
      Some (rd SREG (io m), isr (mkMachine rs (AVRsleep m)),
            [EvCli; EvSleepEnable] ++ bod_log (powerBits (AVRsleep m))
              ++ [EvSei; EvSleepCpu]).
Proof.
  unfold enter_sleep, bod_log.
  cbv [bind read member when macro cli sei sleep_enable sleep_bod_disable sleep_cpu ret].
  cbn [io AVRsleep].
  destruct (truthy (Z.land (powerBits (AVRsleep m)) (Z.shiftl 1 PM_BOD_OFF)));
    eexists; reflexivity.
Qed.

Lemma wake_up_run (oldSREG : Z) (m : machine) :
  exists rs,
    wake_up oldSREG m =
      Some (tt, mkMachine rs (AVRsleep m),
            [EvSleepDisable; EvWrite PRR (u8 (copyPRR (AVRsleep m)));
             EvWrite SREG (u8 oldSREG)])
    /\ rd PRR rs = u8 (copyPRR (AVRsleep m))
    /\ rd SREG rs = u8 oldSREG.
Proof.
  eexists. split; [reflexivity|]. split; reflexivity.
Qed.

(** One run of lines 69-173: the machine behind the pre-sleep call ([m2])
    and at the [aw] test ([m4]). *)
Lemma sleep_and_restore_run (m : machine) :
  exists m2 m4,
    sleep_and_restore code isr m =
      Some (tt, m4,
            restore_log (powerBits (AVRsleep m)) (rd ACSR (io m)) (rd MCUSR (io m))
              (ps (AVRsleep m)) (powerBits (AVRsleep m2))
              (copyPRR (AVRsleep m4)) (rd SREG (io m2)))
    /\ rd PRR (io m4) = u8 (copyPRR (AVRsleep m4))
    /\ rd SREG (io m4) = u8 (rd SREG (io m2))
    /\ (quiet code (ps (AVRsleep m)) ->
        AVRsleep m2 = set_copyPRR (rd PRR (io m)) (AVRsleep m))
    /\ (keeps_object isr -> AVRsleep m4 = AVRsleep m2).
Proof.
  destruct (power_off_peripherals_run m) as (rs1 & H1 & _).
  set (m1 := mkMachine rs1 (set_copyPRR (rd PRR (io m)) (AVRsleep m))) in *.
  pose proof (call_preSleep_run m1) as H2.
  change (ps (AVRsleep m1)) with (ps (AVRsleep m)) in H2.
  set (m2 := after_call code (ps (AVRsleep m)) m1) in *.
  destruct (enter_sleep_run m2) as (rs2 & H3).
  set (m3 := isr (mkMachine rs2 (AVRsleep m2))) in *.
  destruct (wake_up_run (rd SREG (io m2)) m3) as (rs4 & H4 & Hprr & Hsreg).
  exists m2, (mkMachine rs4 (AVRsleep m3)). cbn [io AVRsleep].
  split; [|split; [exact Hprr|split; [exact Hsreg|split]]].
  - unfold sleep_and_restore, restore_log.
    rewrite (bind_run _ _ _ _ _ _ _ _ _ H1
               (bind_run _ _ _ _ _ _ _ _ _ H2
                  (bind_run _ _ _ _ _ _ _ _ _ H3 H4))).
    cbn [app]. rewrite <- !app_assoc. reflexivity.
  - intros Hq. apply (after_call_quiet _ m1 Hq).
  - intros Hk. exact (Hk (mkMachine rs2 (AVRsleep m2))).
Qed.

Lemma goToSleep_run (m : machine) :
  exists m2 m4,
    let t := restore_log (powerBits (AVRsleep m)) (rd ACSR (io m)) (rd MCUSR (io m))
               (ps (AVRsleep m)) (powerBits (AVRsleep m2))
               (copyPRR (AVRsleep m4)) (rd SREG (io m2)) in
    sleep_and_restore code isr m = Some (tt, m4, t)
    /\ goToSleep code isr m =
         Some (tt, after_call code (aw (AVRsleep m4)) m4,
               t ++ call_log AfterWake (aw (AVRsleep m4)))
    /\ rd PRR (io m4) = u8 (copyPRR (AVRsleep m4))
    /\ (quiet code (ps (AVRsleep m)) ->
        AVRsleep m2 = set_copyPRR (rd PRR (io m)) (AVRsleep m))
    /\ (keeps_object isr -> AVRsleep m4 = AVRsleep m2).
Proof.
  destruct (sleep_and_restore_run m) as (m2 & m4 & H & Hprr & _ & Hq & Hk).
  exists m2, m4. cbv zeta.
  split; [exact H|]. split; [|split; [exact Hprr|split; assumption]].
  unfold goToSleep. eapply bind_run; [exact H | apply call_afterWake_run].
Qed.

End Cycle.

Lemma count_app (p : event -> bool) (t t' : list event) :
  count p (t ++ t') = (count p t + count p t')%nat.
Proof. unfold count. rewrite filter_app. apply length_app. Qed.

Lemma count_cons (p : event -> bool) (e : event) (t : list event) :
  count p (e :: t) = ((if p e then 1 else 0) + count p t)%nat.
Proof. unfold count. cbn [filter]. destruct (p e); reflexivity. Qed.

(** Case analysis on the tests that shape a log. *)
Ltac log_cases :=
  unfold restore_log, ac_log, wdt_log, bod_log, call_log in *;
  repeat match goal with
         | |- context [truthy ?v] => destruct (truthy v) eqn:?
         | |- context [N.eqb ?f nullptr] => destruct (N.eqb f nullptr) eqn:?
         end.

(** Both sides of an equation between logs, nested to the right. *)
Ltac log_assoc := repeat first [ rewrite <- app_assoc | progress cbn [app] ].

Lemma do_attaches_total (l : list attach_call) (m : machine) :
  exists m', do_attaches l m = Some (tt, m', []) /\ attach_frame m m'.
Proof.
  revert m. induction l as [|c l IH]; intros m.
  - exists m. repeat split.
  - destruct (IH (mkMachine (io m)
                    (match c with
                     | AttachPreSleep f => set_ps f (AVRsleep m)
                     | AttachWakeUp f => set_aw f (AVRsleep m)
                     end))) as (m' & Hrun & Hio & Hc & Hb).
    exists m'. split.
    + cbn [do_attaches]. change (@nil event) with (@nil event ++ []).
      eapply bind_run; [|exact Hrun]. destruct c; reflexivity.
    + destruct c; repeat split; assumption.
Qed.

Lemma do_attaches_app (l l' : list attach_call) (m m1 m2 : machine) :
  do_attaches l m = Some (tt, m1, []) ->
  do_attaches l' m1 = Some (tt, m2, []) ->
  do_attaches (l ++ l') m = Some (tt, m2, []).
Proof.
  revert m. induction l as [|c l IH]; intros m H1 H2.
  - cbn in H1. injection H1 as <-. exact H2.
  - cbn [do_attaches app] in *. unfold bind in *.
    destruct (do_attach c m) as [[[[] m0] t0]|]; [|discriminate].
    destruct (do_attaches l m0) as [[[[] m0'] t0']|] eqn:E; [|discriminate].
    injection H1 as -> Ht.
    apply app_eq_nil in Ht. destruct Ht as [-> ->].
    rewrite (IH m0 E H2). reflexivity.
Qed.

Lemma wake_attaches_keep_ps (l : list fnptr) (m : machine) :
  exists m', do_attaches (map AttachWakeUp l) m = Some (tt, m', [])
             /\ ps (AVRsleep m') = ps (AVRsleep m).
Proof.
  revert m. induction l as [|f l IH]; intros m.
  - exists m. split; reflexivity.
  - destruct (IH (mkMachine (io m) (set_aw f (AVRsleep m)))) as (m' & Hrun & Hps).
    exists m'. split; [|exact Hps].
    cbn [map do_attaches]. change (@nil event) with (@nil event ++ []).
    eapply bind_run; [reflexivity | exact Hrun].
Qed.

Lemma pre_attaches_keep_aw (l : list fnptr) (m : machine) :
  exists m', do_attaches (map AttachPreSleep l) m = Some (tt, m', [])
             /\ aw (AVRsleep m') = aw (AVRsleep m).
Proof.
  revert m. induction l as [|f l IH]; intros m.
  - exists m. split; reflexivity.
  - destruct (IH (mkMachine (io m) (set_ps f (AVRsleep m)))) as (m' & Hrun & Haw).
    exists m'. split; [|exact Haw].
    cbn [map do_attaches]. change (@nil event) with (@nil event ++ []).
    eapply bind_run; [reflexivity | exact Hrun].
Qed.

(** ** Three runs *)

(** Everything off, both functions registered: the whole log. *)
Example goToSleep_everything_off :
  exists m',
    goToSleep clocks_on_sketch marking_isr ready_to_sleep
    = Some (tt, m',
            [EvWrite PRR 0xef; EvWrite ACSR 0x80;
             EvWdtReset; EvWrite MCUSR 0; EvWdtDisable;
             EvCall PreSleep 1%N;
             EvCli; EvSleepEnable; EvSleepBodDisable; EvSei; EvSleepCpu;
             EvSleepDisable; EvWrite PRR 0x01; EvWrite SREG 0x80;
             EvCall AfterWake 2%N]).
Proof. eexists. vm_compute. reflexivity. Qed.

(** Timer 1 and the ADC off, power-save asked for on an Arduino, nothing
    registered: power-down is selected, PRR gets the two bits, and neither
    the comparator nor the watchdog nor the brown-out detector is touched. *)
Example power_save_on_arduino :
  exists m',
    (setSleepMode true SM_POWER_SAVE (Z.lor PM_TIMER1_OFF PM_ADC_OFF) ;;
     goToSleep clocks_on_sketch marking_isr)
      (mkMachine (mkRegisters 0 0 0 0 0x80 0 0) AVR_sleep_new)
    = Some (tt, m',
            [EvSetSleepMode SLEEP_MODE_PWR_DOWN; EvWrite PRR 0x09;
             EvCli; EvSleepEnable; EvSei; EvSleepCpu;
             EvSleepDisable; EvWrite PRR 0; EvWrite SREG 0x80]).
Proof. eexists. vm_compute. reflexivity. Qed.

(** A call through a null pointer is a fault; [goToSleep] on a fresh object
    makes none. *)
Example null_call_faults :
  call clocks_on_sketch PreSleep nullptr ready_to_sleep = None
  /\ goToSleep clocks_on_sketch marking_isr
       (mkMachine (io ready_to_sleep) AVR_sleep_new) <> None.
Proof. split; [reflexivity | vm_compute; discriminate]. Qed.

(** ** Claims about setSleepMode *)

(** C1.  Whatever mode is requested, [setSleepMode] built for the Arduino
    hands [set_sleep_mode] either that mode or its replacement (power-down
    for power-save, standby for extended standby) and nothing else, and the
    SM field of SMCR then holds it; built for any other target it hands over
    the requested mode itself. *)
Theorem setSleepMode_commits_mode_or_fallback :
  forall (sleepMode : sleepMode_t) (powerOffBits : powerMode_t) (m : machine),
    (exists (c : sleepMode_t) (m' : machine),
        setSleepMode true sleepMode powerOffBits m
          = Some (tt, m', [EvSetSleepMode (sleepMode_value c)])
        /\ SM_field (rd SMCR (io m')) = sleepMode_value c
        /\ (c = sleepMode
            \/ (sleepMode = SM_POWER_SAVE /\ c = SM_POWER_DOWN)
            \/ (sleepMode = SM_EXT_STANDBY /\ c = SM_STANDBY))
        /\ c <> SM_POWER_SAVE /\ c <> SM_EXT_STANDBY)
    /\ (exists m' : machine,
        setSleepMode false sleepMode powerOffBits m
          = Some (tt, m', [EvSetSleepMode (sleepMode_value sleepMode)])
        /\ SM_field (rd SMCR (io m')) = sleepMode_value sleepMode).
Proof.
  intros sm bits m. split.
  - exists (arduino_mode sm). eexists. split; [apply (setSleepMode_run true)|].
    split; [cbn [io]; rewrite rd_wr_same; apply SM_field_select|].
    destruct sm; cbn [arduino_mode]; repeat split; try discriminate; auto.
  - eexists. split; [apply (setSleepMode_run false)|].
    cbn [io]. rewrite rd_wr_same. apply SM_field_select.
Qed.

(** C7.  A second [setSleepMode] with the same arguments changes nothing:
    the object and every register, SMCR included, are as the first call
    left them. *)
Theorem setSleepMode_idempotent :
  forall (ARDUINO : bool) (sleepMode : sleepMode_t) (powerOffBits : powerMode_t)
         (m : machine),
    exists (m' : machine) (t t' : list event),
      setSleepMode ARDUINO sleepMode powerOffBits m = Some (tt, m', t)
      /\ (setSleepMode ARDUINO sleepMode powerOffBits ;;
          setSleepMode ARDUINO sleepMode powerOffBits) m = Some (tt, m', t').
Proof.
  intros a sm bits m.
  pose proof (setSleepMode_run a sm bits m) as H1. cbv zeta in H1.
  eexists _, _, _. split; [exact H1|].
  eapply bind_run; [exact H1|].
  rewrite setSleepMode_run. cbv zeta. cbn [io AVRsleep].
  rewrite rd_wr_same, wr_wr_same, smcr_select_idem. reflexivity.
Qed.

(** ** Claims about the attach functions *)

(** C9.  One call stores its argument in its own member and leaves the other
    member, [powerBits], [copyPRR] and the registers alone; after any
    sequence of calls [ps] is the argument of the last [attachPreSleep] and
    [aw] that of the last [attachWakeUp]. *)
Theorem attach_last_writer_wins :
  forall (m : machine) (f : fnptr),
    attachPreSleep f m
      = Some (tt, mkMachine (io m)
                    (mkAVR_sleep f (aw (AVRsleep m)) (copyPRR (AVRsleep m))
                       (powerBits (AVRsleep m))), [])
    /\ attachWakeUp f m
      = Some (tt, mkMachine (io m)
                    (mkAVR_sleep (ps (AVRsleep m)) f (copyPRR (AVRsleep m))
                       (powerBits (AVRsleep m))), [])
    /\ (forall (before : list attach_call) (later : list fnptr),
          exists m',
            do_attaches (before ++ AttachPreSleep f :: map AttachWakeUp later) m
              = Some (tt, m', [])
            /\ ps (AVRsleep m') = f /\ attach_frame m m')
    /\ (forall (before : list attach_call) (later : list fnptr),
          exists m',
            do_attaches (before ++ AttachWakeUp f :: map AttachPreSleep later) m
              = Some (tt, m', [])
            /\ aw (AVRsleep m') = f /\ attach_frame m m').
Proof.
  intros m f. split; [reflexivity|]. split; [reflexivity|]. split.
  - intros before later.
    destruct (do_attaches_total before m) as (m1 & H1 & F1).
    destruct (wake_attaches_keep_ps later (mkMachine (io m1) (set_ps f (AVRsleep m1))))
      as (m2 & H2 & Hps).
    destruct (do_attaches_total (AttachPreSleep f :: map AttachWakeUp later) m1)
      as (m2' & H2' & F2).
    assert (E : do_attaches (AttachPreSleep f :: map AttachWakeUp later) m1
                = Some (tt, m2, [])).
    { cbn [do_attaches]. change (@nil event) with (@nil event ++ []).
      eapply bind_run; [reflexivity | exact H2]. }
    rewrite E in H2'. injection H2' as <-.
    exists m2. split; [exact (do_attaches_app _ _ _ _ _ H1 E)|].
    split; [exact Hps|].
    destruct F1 as (A1 & B1 & C1), F2 as (A2 & B2 & C2).
    repeat split; congruence.
  - intros before later.
    destruct (do_attaches_total before m) as (m1 & H1 & F1).
    destruct (pre_attaches_keep_aw later (mkMachine (io m1) (set_aw f (AVRsleep m1))))
      as (m2 & H2 & Haw).
    destruct (do_attaches_total (AttachWakeUp f :: map AttachPreSleep later) m1)
      as (m2' & H2' & F2).
    assert (E : do_attaches (AttachWakeUp f :: map AttachPreSleep later) m1
                = Some (tt, m2, [])).
    { cbn [do_attaches]. change (@nil event) with (@nil event ++ []).
      eapply bind_run; [reflexivity | exact H2]. }
    rewrite E in H2'. injection H2' as <-.
    exists m2. split; [exact (do_attaches_app _ _ _ _ _ H1 E)|].
    split; [exact Haw|].
    destruct F1 as (A1 & B1 & C1), F2 as (A2 & B2 & C2).
    repeat split; congruence.
Qed.

(** ** Claims about what goToSleep powers off *)

(** C8.  The first thing [goToSleep] does to the hardware is to store the
    low byte of [powerBits] in PRR, and PRR holds exactly that when the
    peripherals have been dealt with.  Mask bits 8 and up make no difference
    to the value: after [setSleepMode] with any upper bits added to a mask,
    the value stored is still the low byte of the mask without them. *)
Theorem goToSleep_PRR_gets_low_byte :
  forall (code : fnptr -> machine -> machine) (isr : machine -> machine)
         (m : machine),
    let bits := powerBits (AVRsleep m) in
    (exists m1 t1,
        power_off_peripherals m = Some (tt, m1, EvWrite PRR (bits mod 256) :: t1)
        /\ rd PRR (io m1) = bits mod 256
        /\ count (is_write PRR) t1 = 0%nat)
    /\ (exists m' t,
          goToSleep code isr m = Some (tt, m', EvWrite PRR (bits mod 256) :: t))
    /\ Z.land bits 0x00ff = bits mod 256
    /\ (forall (ARDUINO : bool) (sleepMode : sleepMode_t) (upper : Z),
          exists m' v t,
            (setSleepMode ARDUINO sleepMode (Z.lor bits (Z.shiftl upper 8)) ;;
             goToSleep code isr) m
            = Some (tt, m', EvSetSleepMode v :: EvWrite PRR (bits mod 256) :: t)).
Proof.
  intros code isr m bits.
  assert (Hmod : forall b, Z.land b 0x00ff = b mod 256).
  { intros b. change 0x00ff with (Z.ones 8). apply Z.land_ones. lia. }
  split; [|split; [|split]].
  - destruct (power_off_peripherals_run m) as (rs & Hrun & Hprr & _).
    fold bits in Hrun, Hprr. rewrite Hmod in Hrun, Hprr.
    eexists _, _. split; [exact Hrun|]. split; [exact Hprr|].
    rewrite count_app. log_cases; reflexivity.
  - destruct (goToSleep_run code isr m) as (m2 & m4 & _ & Hg & _).
    cbv zeta in Hg. unfold restore_log in Hg. fold bits in Hg.
    rewrite Hmod in Hg. eexists _, _. exact Hg.
  - apply Hmod.
  - intros a sm upper.
    pose proof (setSleepMode_run a sm (Z.lor bits (Z.shiftl upper 8)) m) as Hs.
    cbv zeta in Hs.
    match type of Hs with _ = Some (_, ?m1, _) => set (m0 := m1) in * end.
    destruct (goToSleep_run code isr m0) as (m2 & m4 & _ & Hg & _).
    cbv zeta in Hg. unfold restore_log in Hg.
    change (powerBits (AVRsleep m0)) with (Z.lor bits (Z.shiftl upper 8)) in Hg.
    assert (Hlow : Z.land (Z.lor bits (Z.shiftl upper 8)) 0x00ff = bits mod 256).
    { rewrite <- Hmod. apply Z.bits_inj'. intros i Hi.
      change 0x00ff with (Z.ones 8).
      rewrite !Z.land_spec, Z.lor_spec, Z.testbit_ones_nonneg by lia.
      destruct (Z.ltb_spec i 8) as [Hlt|Hge]; [|btauto].
      rewrite Z.shiftl_spec_low by lia. btauto. }
    rewrite Hlow in Hg.
    eexists _, _, _. rewrite (bind_run _ _ _ _ _ _ _ _ _ Hs Hg).
    cbn [app]. reflexivity.
Qed.

(** What the status-flag statement of the watchdog sequence leaves in MCUSR:
    the old WDRF bit and nothing else. *)
Lemma watchdog_status_after (m : machine) :
  Z.testbit (powerBits (AVRsleep m)) PM_WDT_OFF = true ->
  exists m1 t1,
    power_off_peripherals m = Some (tt, m1, t1)
    /\ rd MCUSR (io m1) = Z.land (u8 (rd MCUSR (io m))) (Z.shiftl 1 WDRF).
Proof.
  intros Hbit.
  destruct (power_off_peripherals_run m) as (rs & Hrun & _ & _ & Hm).
  rewrite truthy_flag in Hm by (cbv; discriminate). rewrite Hbit in Hm.
  eexists _, _. split; [exact Hrun|]. cbn [io]. rewrite Hm.
  unfold u8. rewrite <- !Z.land_assoc. reflexivity.
Qed.

(** C4.  On [after_watchdog_reset] (MCUSR holds PORF and WDRF, bit 10 of
    [powerBits] is set) the status-flag statement of [goToSleep]'s watchdog
    sequence writes 8 to MCUSR: WDRF, which was to be cleared, is still set,
    and PORF, which was to be kept, is gone. *)
Theorem watchdog_status_write_keeps_WDRF :
  exists m1,
    power_off_peripherals after_watchdog_reset
      = Some (tt, m1, [EvWrite PRR 0; EvWdtReset; EvWrite MCUSR 8; EvWdtDisable])
    /\ Z.testbit (rd MCUSR (io after_watchdog_reset)) WDRF = true
    /\ Z.testbit (rd MCUSR (io m1)) WDRF = true
    /\ Z.testbit (rd MCUSR (io after_watchdog_reset)) 0 = true
    /\ Z.testbit (rd MCUSR (io m1)) 0 = false.
Proof.
  eexists. split; [vm_compute; reflexivity|]. repeat split.
Qed.

(** ** Claims about the order of operations in goToSleep *)

(** C5.  With bit 10 of [powerBits] set, the log of [goToSleep] holds
    [wdt_reset], the MCUSR write and [wdt_disable] next to each other in
    that order, and nothing else in the log touches the watchdog; with the
    bit clear nothing in the log does. *)
Theorem goToSleep_watchdog_reset_before_disable :
  forall (code : fnptr -> machine -> machine) (isr : machine -> machine)
         (m : machine),
    exists m' t,
      goToSleep code isr m = Some (tt, m', t)
      /\ if Z.testbit (powerBits (AVRsleep m)) PM_WDT_OFF
         then exists pre v post,
                t = pre ++ [EvWdtReset; EvWrite MCUSR v; EvWdtDisable] ++ post
                /\ count is_wdt pre = 0%nat
                /\ count is_wdt post = 0%nat
         else count is_wdt t = 0%nat.
Proof.
  intros code isr m.
  destruct (goToSleep_run code isr m) as (m2 & m4 & _ & Hg & _).
  cbv zeta in Hg. eexists _, _. split; [exact Hg|].
  rewrite <- truthy_flag by (cbv; discriminate).
  destruct (truthy (Z.land (powerBits (AVRsleep m)) (Z.shiftl 1 PM_WDT_OFF))) eqn:Hw.
  - exists (EvWrite PRR (Z.land (powerBits (AVRsleep m)) 0x00ff)
              :: ac_log (powerBits (AVRsleep m)) (rd ACSR (io m))),
           (u8 (Z.land (rd MCUSR (io m)) (Z.shiftl 1 WDRF))),
           ((call_log PreSleep (ps (AVRsleep m))
               ++ [EvCli; EvSleepEnable] ++ bod_log (powerBits (AVRsleep m2))
               ++ [EvSei; EvSleepCpu; EvSleepDisable;
                   EvWrite PRR (u8 (copyPRR (AVRsleep m4)));
                   EvWrite SREG (u8 (rd SREG (io m2)))])
              ++ call_log AfterWake (aw (AVRsleep m4))).
    unfold restore_log, wdt_log. rewrite Hw.
    split; [|split].
    + log_assoc. reflexivity.
    + log_cases; reflexivity.
    + log_cases; reflexivity.
  - unfold restore_log, wdt_log. rewrite Hw. log_cases; reflexivity.
Qed.

(** C3.  Provided the pre-sleep function leaves the object alone: with
    bit 9 of [powerBits] set, [sleep_bod_disable] comes directly behind
    [sleep_enable], with [sei] alone between it and the sleep instruction;
    none of the four occurs anywhere else, and nothing before them enables
    interrupts.  With the bit clear the brown-out detector is not touched. *)
Theorem goToSleep_bod_disable_abuts_sleep :
  forall (code : fnptr -> machine -> machine) (isr : machine -> machine)
         (m : machine),
    quiet code (ps (AVRsleep m)) ->
    exists m' t,
      goToSleep code isr m = Some (tt, m', t)
      /\ if Z.testbit (powerBits (AVRsleep m)) PM_BOD_OFF
         then exists pre post,
                t = pre ++ [EvSleepEnable; EvSleepBodDisable; EvSei; EvSleepCpu] ++ post
                /\ count is_sleep_enable (pre ++ post) = 0%nat
                /\ count is_bod (pre ++ post) = 0%nat
                /\ count is_sei (pre ++ post) = 0%nat
                /\ count is_sleep_cpu (pre ++ post) = 0%nat
                /\ count (is_write SREG) pre = 0%nat
         else count is_bod t = 0%nat.
Proof.
  intros code isr m Hq.
  destruct (goToSleep_run code isr m) as (m2 & m4 & _ & Hg & _ & H2 & _).
  cbv zeta in Hg. rewrite (H2 Hq) in Hg. cbn [powerBits set_copyPRR] in Hg.
  eexists _, _. split; [exact Hg|].
  rewrite <- truthy_flag by (cbv; discriminate).
  destruct (truthy (Z.land (powerBits (AVRsleep m)) (Z.shiftl 1 PM_BOD_OFF))) eqn:Hb.
  - exists (EvWrite PRR (Z.land (powerBits (AVRsleep m)) 0x00ff)
              :: ac_log (powerBits (AVRsleep m)) (rd ACSR (io m))
              ++ wdt_log (powerBits (AVRsleep m)) (rd MCUSR (io m))
              ++ call_log PreSleep (ps (AVRsleep m)) ++ [EvCli]),
           ([EvSleepDisable; EvWrite PRR (u8 (copyPRR (AVRsleep m4)));
             EvWrite SREG (u8 (rd SREG (io m2)))]
              ++ call_log AfterWake (aw (AVRsleep m4))).
    unfold restore_log, bod_log. rewrite Hb.
    split; [|repeat split; log_cases; reflexivity].
    log_assoc. reflexivity.
  - unfold restore_log, bod_log. rewrite Hb. log_cases; reflexivity.
Qed.

(** C6.  Provided neither the pre-sleep function nor the interrupt handler
    touches the object: [goToSleep] never faults; its log is the part up to
    the pre-sleep call, that call when [ps] is not null, [cli], the part up
    to the write that restores SREG, that write, and last the call through
    [aw] when [aw] is not null.  No other call, [cli] or SREG write occurs,
    so each registered function is called once and a null one never. *)
Theorem goToSleep_calls_each_hook_once :
  forall (code : fnptr -> machine -> machine) (isr : machine -> machine)
         (m : machine),
    quiet code (ps (AVRsleep m)) ->
    keeps_object isr ->
    exists m' pre mid v,
      goToSleep code isr m
        = Some (tt, m',
                pre ++ (if N.eqb (ps (AVRsleep m)) nullptr then []
                        else [EvCall PreSleep (ps (AVRsleep m))])
                    ++ EvCli :: mid
                    ++ EvWrite SREG v
                    :: (if N.eqb (aw (AVRsleep m)) nullptr then []
                        else [EvCall AfterWake (aw (AVRsleep m))]))
      /\ count is_cli (pre ++ mid) = 0%nat
      /\ count (is_write SREG) (pre ++ mid) = 0%nat
      /\ count (is_call PreSleep) (pre ++ mid) = 0%nat
      /\ count (is_call AfterWake) (pre ++ mid) = 0%nat.
Proof.
  intros code isr m Hq Hk.
  destruct (goToSleep_run code isr m) as (m2 & m4 & _ & Hg & _ & H2 & H4).
  cbv zeta in Hg. specialize (H2 Hq). specialize (H4 Hk).
  rewrite H4, H2 in Hg. cbn [powerBits aw copyPRR set_copyPRR] in Hg.
  exists (after_call code (aw (AVRsleep m)) m4),
         (EvWrite PRR (Z.land (powerBits (AVRsleep m)) 0x00ff)
            :: ac_log (powerBits (AVRsleep m)) (rd ACSR (io m))
            ++ wdt_log (powerBits (AVRsleep m)) (rd MCUSR (io m))),
         (EvSleepEnable :: bod_log (powerBits (AVRsleep m))
            ++ [EvSei; EvSleepCpu; EvSleepDisable; EvWrite PRR (u8 (rd PRR (io m)))]),
         (u8 (rd SREG (io m2))).
  split.
  - rewrite Hg. unfold restore_log, call_log. f_equal. f_equal.
    log_assoc. reflexivity.
  - repeat split; log_cases; reflexivity.
Qed.

(** C10.  [PM_AC_OFF], [PM_BOD_OFF] and [PM_WDT_OFF] are the numbers 8, 9
    and 10, and 8 is also [PM_TIMER1_OFF].  Provided the pre-sleep function
    leaves the object alone, [goToSleep] writes ACSR exactly when bit 8 of
    [powerBits] is set, disables the brown-out detector exactly when bit 9
    is, and runs the three watchdog steps exactly when bit 10 is.  After
    [setSleepMode] with the bare [PM_AC_OFF] it stores the Timer 1 bit in
    PRR and touches none of the three. *)
Theorem synthetic_flags_are_bit_numbers :
  forall (code : fnptr -> machine -> machine) (isr : machine -> machine)
         (m : machine),
    quiet code (ps (AVRsleep m)) ->
    (PM_AC_OFF = 8 /\ PM_BOD_OFF = 9 /\ PM_WDT_OFF = 10
     /\ PM_AC_OFF = PM_TIMER1_OFF)
    /\ (exists m' t,
          goToSleep code isr m = Some (tt, m', t)
          /\ count is_ac t = (if Z.testbit (powerBits (AVRsleep m)) 8 then 1 else 0)%nat
          /\ count is_bod t = (if Z.testbit (powerBits (AVRsleep m)) 9 then 1 else 0)%nat
          /\ count is_wdt t = (if Z.testbit (powerBits (AVRsleep m)) 10 then 3 else 0)%nat)
    /\ (forall (ARDUINO : bool) (sleepMode : sleepMode_t),
          exists m' v t,
            (setSleepMode ARDUINO sleepMode PM_AC_OFF ;; goToSleep code isr) m
              = Some (tt, m', EvSetSleepMode v :: EvWrite PRR (Z.shiftl 1 PRTIM1) :: t)
            /\ count is_ac t = 0%nat
            /\ count is_bod t = 0%nat
            /\ count is_wdt t = 0%nat).
Proof.
  intros code isr m Hq.
  split; [repeat split|]. split.
  - destruct (goToSleep_run code isr m) as (m2 & m4 & _ & Hg & _ & H2 & _).
    cbv zeta in Hg. rewrite (H2 Hq) in Hg. cbn [powerBits set_copyPRR] in Hg.
    eexists _, _. split; [exact Hg|].
    change 8 with PM_AC_OFF. change 9 with PM_BOD_OFF. change 10 with PM_WDT_OFF.
    rewrite <- !truthy_flag by (cbv; discriminate).
    repeat split; log_cases; reflexivity.
  - intros a sm.
    pose proof (setSleepMode_run a sm PM_AC_OFF m) as Hs. cbv zeta in Hs.
    match type of Hs with _ = Some (_, ?m1, _) => set (m0 := m1) in * end.
    destruct (goToSleep_run code isr m0) as (m2 & m4 & _ & Hg & _ & H2 & _).
    cbv zeta in Hg. rewrite (H2 Hq) in Hg.
    cbn [powerBits set_copyPRR AVRsleep m0 set_powerBits] in Hg.
    eexists _, _, _. rewrite (bind_run _ _ _ _ _ _ _ _ _ Hs Hg).
    split; [unfold restore_log; cbn [app]; reflexivity|].
    change (ac_log PM_AC_OFF (rd ACSR (io m0))) with (@nil event).
    change (wdt_log PM_AC_OFF (rd MCUSR (io m0))) with (@nil event).
    change (bod_log PM_AC_OFF) with (@nil event).
    cbn [app].
    split; [|split]; log_cases; reflexivity.
Qed.

(** C2.  Provided the register holds a byte and neither the pre-sleep
    function nor the interrupt handler touches the object: when [goToSleep]
    comes to test [aw], PRR holds again what it held on entry, whatever
    [powerBits] was and whatever the sketch did to PRR in between, and the
    function behind [aw] is started on that machine. *)
Theorem goToSleep_restores_PRR_before_afterWake :
  forall (code : fnptr -> machine -> machine) (isr : machine -> machine)
         (m : machine),
    byte (rd PRR (io m)) ->
    quiet code (ps (AVRsleep m)) ->
    keeps_object isr ->
    exists m4 t,
      sleep_and_restore code isr m = Some (tt, m4, t)
      /\ rd PRR (io m4) = rd PRR (io m)
      /\ (exists t0, t = t0 ++ [EvWrite PRR (rd PRR (io m)); EvWrite SREG (rd SREG (io m4))])
      /\ goToSleep code isr m
         = Some (tt,
                 (if N.eqb (aw (AVRsleep m)) nullptr then m4
                  else code (aw (AVRsleep m)) m4),
                 t ++ (if N.eqb (aw (AVRsleep m)) nullptr then []
                       else [EvCall AfterWake (aw (AVRsleep m))])).
Proof.
  intros code isr m Hb Hq Hk.
  destruct (sleep_and_restore_run code isr m)
    as (m2 & m4 & Hr & Hprr & Hsreg & H2 & H4).
  specialize (H2 Hq). specialize (H4 Hk).
  assert (Hobj : AVRsleep m4 = set_copyPRR (rd PRR (io m)) (AVRsleep m))
    by congruence.
  assert (Hsaved : u8 (copyPRR (AVRsleep m4)) = rd PRR (io m)).
  { rewrite Hobj. cbn [copyPRR set_copyPRR]. apply u8_of_byte, Hb. }
  exists m4. eexists. split; [exact Hr|].
  split; [congruence|]. split.
  - unfold restore_log. rewrite Hsaved, <- Hsreg.
    exists (EvWrite PRR (Z.land (powerBits (AVRsleep m)) 0x00ff)
              :: ac_log (powerBits (AVRsleep m)) (rd ACSR (io m))
              ++ wdt_log (powerBits (AVRsleep m)) (rd MCUSR (io m))
              ++ call_log PreSleep (ps (AVRsleep m))
              ++ [EvCli; EvSleepEnable] ++ bod_log (powerBits (AVRsleep m2))
              ++ [EvSei; EvSleepCpu; EvSleepDisable]).
    log_assoc. reflexivity.
  - unfold goToSleep. rewrite (bind_run _ _ _ _ _ _ _ _ _ Hr (call_afterWake_run code m4)).
    unfold after_call, call_log. rewrite Hobj. reflexivity.
Qed.

(** ** The theorems at work on the example sketch *)

Lemma goToSleep_restores_PRR_before_afterWake_witness :
  byte (rd PRR (io ready_to_sleep))
  /\ quiet clocks_on_sketch (ps (AVRsleep ready_to_sleep))
  /\ keeps_object marking_isr
  /\ exists m4 t,
       sleep_and_restore clocks_on_sketch marking_isr ready_to_sleep = Some (tt, m4, t)
       /\ rd PRR (io m4) = 0x01
       /\ (exists t0, t = t0 ++ [EvWrite PRR 0x01; EvWrite SREG (rd SREG (io m4))])
       /\ goToSleep clocks_on_sketch marking_isr ready_to_sleep
          = Some (tt, clocks_on_sketch 2%N m4, t ++ [EvCall AfterWake 2%N]).
Proof.
  assert (Hb : byte (rd PRR (io ready_to_sleep))) by (unfold byte; cbn; lia).
  assert (Hq : quiet clocks_on_sketch (ps (AVRsleep ready_to_sleep)))
    by (right; intros m; reflexivity).
  assert (Hk : keeps_object marking_isr) by (intros m; reflexivity).
  split; [exact Hb|]. split; [exact Hq|]. split; [exact Hk|].
  exact (goToSleep_restores_PRR_before_afterWake
           clocks_on_sketch marking_isr ready_to_sleep Hb Hq Hk).
Defined.

Lemma goToSleep_bod_disable_abuts_sleep_witness :
  quiet clocks_on_sketch (ps (AVRsleep ready_to_sleep))
  /\ exists m' t,
       goToSleep clocks_on_sketch marking_isr ready_to_sleep = Some (tt, m', t)
       /\ exists pre post,
            t = pre ++ [EvSleepEnable; EvSleepBodDisable; EvSei; EvSleepCpu] ++ post
            /\ count is_sleep_enable (pre ++ post) = 0%nat
            /\ count is_bod (pre ++ post) = 0%nat
            /\ count is_sei (pre ++ post) = 0%nat
            /\ count is_sleep_cpu (pre ++ post) = 0%nat
            /\ count (is_write SREG) pre = 0%nat.
Proof.
  assert (Hq : quiet clocks_on_sketch (ps (AVRsleep ready_to_sleep)))
    by (right; intros m; reflexivity).
  split; [exact Hq|].
  exact (goToSleep_bod_disable_abuts_sleep
           clocks_on_sketch marking_isr ready_to_sleep Hq).
Defined.

Lemma goToSleep_calls_each_hook_once_witness :
  quiet clocks_on_sketch (ps (AVRsleep ready_to_sleep))
  /\ keeps_object marking_isr
  /\ exists m' pre mid v,
       goToSleep clocks_on_sketch marking_isr ready_to_sleep
         = Some (tt, m',
                 pre ++ [EvCall PreSleep 1%N] ++ EvCli :: mid
                     ++ EvWrite SREG v :: [EvCall AfterWake 2%N])
       /\ count is_cli (pre ++ mid) = 0%nat
       /\ count (is_write SREG) (pre ++ mid) = 0%nat
       /\ count (is_call PreSleep) (pre ++ mid) = 0%nat
       /\ count (is_call AfterWake) (pre ++ mid) = 0%nat.
Proof.
  assert (Hq : quiet clocks_on_sketch (ps (AVRsleep ready_to_sleep)))
    by (right; intros m; reflexivity).
  assert (Hk : keeps_object marking_isr) by (intros m; reflexivity).
  split; [exact Hq|]. split; [exact Hk|].
  exact (goToSleep_calls_each_hook_once
           clocks_on_sketch marking_isr ready_to_sleep Hq Hk).
Defined.

Lemma synthetic_flags_are_bit_numbers_witness :
  quiet clocks_on_sketch (ps (AVRsleep ready_to_sleep))
  /\ exists m' t,
       goToSleep clocks_on_sketch marking_isr ready_to_sleep = Some (tt, m', t)
       /\ count is_ac t = 1%nat
       /\ count is_bod t = 1%nat
       /\ count is_wdt t = 3%nat.
Proof.
  assert (Hq : quiet clocks_on_sketch (ps (AVRsleep ready_to_sleep)))
    by (right; intros m; reflexivity).
  split; [exact Hq|].
  exact (proj1 (proj2 (synthetic_flags_are_bit_numbers
                         clocks_on_sketch marking_isr ready_to_sleep Hq))).
Defined.

(** ** The registers along one run *)

Lemma power_off_peripherals_state (m : machine) :
  let bits := powerBits (AVRsleep m) in
  exists rs,
    power_off_peripherals m =
      Some (tt, mkMachine rs (set_copyPRR (rd PRR (io m)) (AVRsleep m)),
            EvWrite PRR (Z.land bits 0x00ff)
              :: ac_log bits (rd ACSR (io m)) ++ wdt_log bits (rd MCUSR (io m)))
    /\ forall r, rd r rs = powered_off bits (io m) r.
Proof.
  intros bits. unfold power_off_peripherals, ac_log, wdt_log, powered_off.
  cbv [bind read assign member write when macro wdt_reset wdt_disable ret].
  cbn [io AVRsleep powerBits set_copyPRR]. fold bits.
  rewrite u8_low_byte.
  destruct (truthy (Z.land bits (Z.shiftl 1 PM_AC_OFF)));
    cbn [io AVRsleep powerBits set_copyPRR]; fold bits;
    destruct (truthy (Z.land bits (Z.shiftl 1 PM_WDT_OFF)));
    cbn [io AVRsleep app]; eexists; (split; [reflexivity|]);
    intros r; destruct r; reflexivity.
Qed.

Lemma enter_sleep_state (m : machine) :
  exists rs,
    (forall isr : machine -> machine,
        enter_sleep isr m =
          Some (rd SREG (io m), isr (mkMachine rs (AVRsleep m)),
                [EvCli; EvSleepEnable] ++ bod_log (powerBits (AVRsleep m))
                  ++ [EvSei; EvSleepCpu]))
    /\ forall r, rd r rs = asleep (powerBits (AVRsleep m)) (io m) r.
Proof.
  unfold enter_sleep, bod_log, asleep.
  cbv [bind read member when macro cli sei sleep_enable sleep_bod_disable sleep_cpu ret].
  cbn [io AVRsleep].
  destruct (truthy (Z.land (powerBits (AVRsleep m)) (Z.shiftl 1 PM_BOD_OFF)));
    eexists; (split; [intros isr; reflexivity|]);
    intros r; destruct r; reflexivity.
Qed.

Lemma wake_up_state (oldSREG : Z) (m : machine) :
  exists rs,
    wake_up oldSREG m =
      Some (tt, mkMachine rs (AVRsleep m),
            [EvSleepDisable; EvWrite PRR (u8 (copyPRR (AVRsleep m)));
             EvWrite SREG (u8 oldSREG)])
    /\ forall r, rd r rs = woken (copyPRR (AVRsleep m)) oldSREG (io m) r.
Proof.
  eexists. split; [reflexivity|]. intros r; destruct r; reflexivity.
Qed.

Section States.

Variable code : fnptr -> machine -> machine.
Variable isr : machine -> machine.

(** The four machines of one run of lines 69-173: behind the power-off
    part ([m1]), behind the pre-sleep call ([m2]), at the sleep instruction
    ([ms]) and at the [aw] test ([m4]). *)
Lemma sleep_and_restore_states (m : machine) :
  exists rs1 rs2 rs4,
    let m1 := mkMachine rs1 (set_copyPRR (rd PRR (io m)) (AVRsleep m)) in
    let m2 := after_call code (ps (AVRsleep m)) m1 in
    let ms := mkMachine rs2 (AVRsleep m2) in
    let m4 := mkMachine rs4 (AVRsleep (isr ms)) in
    sleep_and_restore code isr m =
      Some (tt, m4,
            restore_log (powerBits (AVRsleep m)) (rd ACSR (io m)) (rd MCUSR (io m))
              (ps (AVRsleep m)) (powerBits (AVRsleep m2))
              (copyPRR (AVRsleep (isr ms))) (rd SREG (io m2)))
    /\ (forall r, rd r rs1 = powered_off (powerBits (AVRsleep m)) (io m) r)
    /\ (forall r, rd r rs2 = asleep (powerBits (AVRsleep m2)) (io m2) r)
    /\ (forall r, rd r rs4 =
                  woken (copyPRR (AVRsleep (isr ms))) (rd SREG (io m2)) (io (isr ms)) r).
Proof.
  destruct (power_off_peripherals_state m) as (rs1 & H1 & R1).
  set (m1 := mkMachine rs1 (set_copyPRR (rd PRR (io m)) (AVRsleep m))) in *.
  pose proof (call_preSleep_run code m1) as H2.
  change (ps (AVRsleep m1)) with (ps (AVRsleep m)) in H2.
  set (m2 := after_call code (ps (AVRsleep m)) m1) in *.
  destruct (enter_sleep_state m2) as (rs2 & H3 & R2).
  specialize (H3 isr).
  set (ms := mkMachine rs2 (AVRsleep m2)) in *.
  destruct (wake_up_state (rd SREG (io m2)) (isr ms)) as (rs4 & H4 & R4).
  exists rs1, rs2, rs4. cbv zeta. fold m1 m2 ms.
  split; [|split; [exact R1|split; [exact R2|exact R4]]].
  unfold sleep_and_restore, restore_log.
  rewrite (bind_run _ _ _ _ _ _ _ _ _ H1
             (bind_run _ _ _ _ _ _ _ _ _ H2
                (bind_run _ _ _ _ _ _ _ _ _ H3 H4))).
  cbn [app]. rewrite <- !app_assoc. reflexivity.
Qed.

Lemma after_call_keeps_reg (r : reg) (f : fnptr) (m : machine) :
  hook_keeps_reg code r f -> rd r (io (after_call code f m)) = rd r (io m).
Proof.
  unfold after_call. intros [->|H]; [reflexivity|].
  destruct (N.eqb f nullptr); [reflexivity | apply H].
Qed.

End States.

(** ** More on bits *)

Lemma high_bit_of_byte (c i : Z) : byte c -> 8 <= i -> Z.testbit c i = false.
Proof.
  unfold byte. intros Hc Hi.
  destruct (Z.eq_dec c 0) as [->|Hnz]; [apply Z.bits_0|].
  apply Z.bits_above_log2; [lia|].
  apply Z.lt_le_trans with (m := 8); [|exact Hi].
  apply Z.log2_lt_pow2; lia.
Qed.

(** Bit-by-bit equality of byte-sized expressions over any number of
    unknowns, below bit 8. *)
Ltac low_bits_all i Hi :=
  assert (Hcases : i = 0 \/ i = 1 \/ i = 2 \/ i = 3 \/ i = 4 \/ i = 5 \/ i = 6 \/ i = 7)
    by lia;
  clear Hi;
  repeat (destruct Hcases as [->|Hcases]); try subst i;
  repeat first [ rewrite u8_spec by lia | rewrite Z.land_spec | rewrite Z.lor_spec
               | rewrite Z.lnot_spec by lia ];
  repeat match goal with
         | |- context [Z.testbit ?s ?k] =>
             is_var s; generalize (Z.testbit s k); intros []
         end;
  reflexivity.

Lemma SM_field_byte (s c : Z) (f : Z -> Z) :
  byte c ->
  (forall i, 0 <= i < 8 -> Z.testbit (f s) i && Z.testbit c i = Z.testbit s i && Z.testbit c i) ->
  Z.land (f s) c = Z.land s c.
Proof.
  intros Hc H. apply Z.bits_inj'. intros i Hi. rewrite !Z.land_spec.
  destruct (Z.lt_ge_cases i 8) as [Hlo|Hhi]; [apply H; lia|].
  rewrite (high_bit_of_byte c i Hc Hhi), !andb_false_r. reflexivity.
Qed.

Lemma SM_field_sleep_enable (s : Z) :
  SM_field (u8 (Z.lor s (_BV SE))) = SM_field s.
Proof.
  unfold SM_field.
  apply (SM_field_byte s _ (fun s => u8 (Z.lor s (_BV SE)))); [cbv; split; congruence|].
  intros i Hi. low_bits_all i Hi.
Qed.

Lemma SM_field_sleep_disable (s : Z) :
  SM_field (u8 (Z.land s (Z.lnot (_BV SE)))) = SM_field s.
Proof.
  unfold SM_field.
  apply (SM_field_byte s _ (fun s => u8 (Z.land s (Z.lnot (_BV SE)))));
    [cbv; split; congruence|].
  intros i Hi. low_bits_all i Hi.
Qed.

Lemma SM_field_u8 (s : Z) : SM_field (u8 s) = SM_field s.
Proof.
  unfold SM_field.
  apply (SM_field_byte s _ u8); [cbv; split; congruence|].
  intros i Hi. low_bits_all i Hi.
Qed.

Lemma SE_after_enable (s : Z) : Z.testbit (u8 (Z.lor s (_BV SE))) SE = true.
Proof.
  rewrite u8_spec, Z.lor_spec by (cbv; discriminate).
  apply andb_true_iff. split; [apply orb_true_r | reflexivity].
Qed.

Lemma SE_after_disable (s : Z) : Z.testbit (u8 (Z.land s (Z.lnot (_BV SE)))) SE = false.
Proof.
  rewrite u8_spec, Z.land_spec by (cbv; discriminate).
  rewrite andb_true_r. apply andb_false_r.
Qed.

Lemma I_after_sei (s : Z) : Z.testbit (u8 (Z.lor s (_BV SREG_I))) SREG_I = true.
Proof.
  rewrite u8_spec, Z.lor_spec by (cbv; discriminate).
  apply andb_true_iff. split; [apply orb_true_r | reflexivity].
Qed.

Lemma ACD_after_disable (s : Z) : Z.testbit (u8 (Z.lor s (Z.shiftl 1 ACD))) ACD = true.
Proof.
  rewrite u8_spec, Z.lor_spec by (cbv; discriminate).
  apply andb_true_iff. split; [apply orb_true_r | reflexivity].
Qed.

Lemma smcr_select_overwrites (s : Z) (c1 c2 : sleepMode_t) :
  smcr_select (smcr_select s (sleepMode_value c1)) (sleepMode_value c2)
  = smcr_select s (sleepMode_value c2).
Proof.
  unfold smcr_select.
  apply Z.bits_inj'. intros i Hi.
  destruct (Z.lt_ge_cases i 8) as [Hlo|Hhi].
  - destruct c1, c2; low_bits_all i Hi.
  - rewrite !(u8_spec _ i) by lia.
    replace (i <? 8) with false by (symmetry; apply Z.ltb_ge; lia).
    rewrite !andb_false_r. reflexivity.
Qed.

Lemma smcr_select_keeps_rest (s : Z) (c : sleepMode_t) :
  Z.land (smcr_select s (sleepMode_value c)) 0xf1 = Z.land s 0xf1.
Proof.
  apply (SM_field_byte s _ (fun s => smcr_select s (sleepMode_value c)));
    [cbv; split; congruence|].
  intros i Hi. unfold smcr_select. destruct c; low_bits_all i Hi.
Qed.

(** ** More on setSleepMode *)

(** X1.  Of two [setSleepMode] calls in a row only the second counts: the
    machine is the one the second call alone would have left, so nothing of
    the earlier mode or mask survives. *)
Theorem setSleepMode_last_call_wins :
  forall (ARDUINO : bool) (mode1 mode2 : sleepMode_t) (bits1 bits2 : powerMode_t)
         (m : machine),
    exists (m' : machine) (t t' : list event),
      setSleepMode ARDUINO mode2 bits2 m = Some (tt, m', t)
      /\ (setSleepMode ARDUINO mode1 bits1 ;; setSleepMode ARDUINO mode2 bits2) m
         = Some (tt, m', t').
Proof.
  intros a sm1 sm2 b1 b2 m.
  pose proof (setSleepMode_run a sm1 b1 m) as H1. cbv zeta in H1.
  pose proof (setSleepMode_run a sm2 b2 m) as H2. cbv zeta in H2.
  eexists _, _, _. split; [exact H2|].
  eapply bind_run; [exact H1|].
  rewrite setSleepMode_run. cbv zeta. cbn [io AVRsleep].
  rewrite rd_wr_same, wr_wr_same, smcr_select_overwrites. reflexivity.
Qed.

(** X2.  [setSleepMode] changes [powerBits] and the SM field of SMCR and
    nothing else: the two function pointers, [copyPRR], the other six
    registers and the SMCR bits outside SM2:0, the sleep-enable bit among
    them, are as before, and nothing but [set_sleep_mode] is logged. *)
Theorem setSleepMode_touches_mask_and_mode_only :
  forall (ARDUINO : bool) (sleepMode : sleepMode_t) (powerOffBits : powerMode_t)
         (m : machine),
    exists (m' : machine) (v : Z),
      setSleepMode ARDUINO sleepMode powerOffBits m = Some (tt, m', [EvSetSleepMode v])
      /\ AVRsleep m'
         = mkAVR_sleep (ps (AVRsleep m)) (aw (AVRsleep m)) (copyPRR (AVRsleep m))
                       powerOffBits
      /\ rd PRR (io m') = rd PRR (io m)
      /\ rd ACSR (io m') = rd ACSR (io m)
      /\ rd MCUSR (io m') = rd MCUSR (io m)
      /\ rd SREG (io m') = rd SREG (io m)
      /\ rd MCUCR (io m') = rd MCUCR (io m)
      /\ rd WDTCSR (io m') = rd WDTCSR (io m)
      /\ Z.land (rd SMCR (io m')) 0xf1 = Z.land (rd SMCR (io m)) 0xf1
      /\ Z.testbit (rd SMCR (io m')) SE = Z.testbit (rd SMCR (io m)) SE.
Proof.
  intros a sm bits m.
  pose proof (setSleepMode_run a sm bits m) as H. cbv zeta in H.
  eexists _, _. split; [exact H|]. cbn [io AVRsleep].
  split; [reflexivity|].
  do 6 (split; [reflexivity|]).
  rewrite rd_wr_same.
  assert (E := smcr_select_keeps_rest (rd SMCR (io m))
                 (if a then arduino_mode sm else sm)).
  split; [exact E|].
  apply (f_equal (fun z => Z.testbit z SE)) in E.
  rewrite !Z.land_spec in E.
  change (Z.testbit 0xf1 SE) with true in E. rewrite !andb_true_r in E.
  exact E.
Qed.

(** X3.  Built for the Arduino, [setSleepMode] cannot tell power-save from
    power-down nor extended standby from standby: the calls give the same
    result, log included.  Built otherwise, two different modes always leave
    different values in SMCR. *)
Theorem setSleepMode_arduino_merges_modes :
  forall (powerOffBits : powerMode_t) (m : machine),
    setSleepMode true SM_POWER_SAVE powerOffBits m
      = setSleepMode true SM_POWER_DOWN powerOffBits m
    /\ setSleepMode true SM_EXT_STANDBY powerOffBits m
      = setSleepMode true SM_STANDBY powerOffBits m
    /\ forall (mode1 mode2 : sleepMode_t),
         exists m1 m2 t1 t2,
           setSleepMode false mode1 powerOffBits m = Some (tt, m1, t1)
           /\ setSleepMode false mode2 powerOffBits m = Some (tt, m2, t2)
           /\ (mode1 = mode2 \/ rd SMCR (io m1) <> rd SMCR (io m2)).
Proof.
  intros bits m. split; [reflexivity|]. split; [reflexivity|].
  intros sm1 sm2.
  pose proof (setSleepMode_run false sm1 bits m) as H1. cbv zeta in H1.
  pose proof (setSleepMode_run false sm2 bits m) as H2. cbv zeta in H2.
  eexists _, _, _, _. split; [exact H1|]. split; [exact H2|].
  cbn [io]. rewrite !rd_wr_same.
  destruct sm1, sm2; try (left; reflexivity); right; intros E;
    apply (f_equal SM_field) in E; rewrite !SM_field_select in E; discriminate E.
Qed.

(** ** More on goToSleep: the registers *)

(** X4.  Lines 110-136 put the processor to sleep with the sleep-enable bit
    set and global interrupts enabled, whatever SREG and SMCR held before;
    the selected mode, PRR and the object are as they were, and [oldSREG] is
    the SREG found on entry.  [ms] is the machine the interrupt handler
    starts on. *)
Theorem enter_sleep_armed_with_interrupts_on :
  forall (m : machine),
    exists (ms : machine) (t : list event),
      (forall isr : machine -> machine,
          enter_sleep isr m = Some (rd SREG (io m), isr ms, t))
      /\ Z.testbit (rd SMCR (io ms)) SE = true
      /\ Z.testbit (rd SREG (io ms)) SREG_I = true
      /\ SM_field (rd SMCR (io ms)) = SM_field (rd SMCR (io m))
      /\ rd PRR (io ms) = rd PRR (io m)
      /\ AVRsleep ms = AVRsleep m.
Proof.
  intros m. destruct (enter_sleep_state m) as (rs & H & R).
  exists (mkMachine rs (AVRsleep m)). eexists. split; [exact H|].
  cbn [io AVRsleep]. rewrite (R SMCR), (R SREG), (R PRR). cbn [asleep].
  split; [apply SE_after_enable|]. split; [apply I_after_sei|].
  split; [apply SM_field_sleep_enable|]. split; reflexivity.
Qed.

(** X5.  Provided SREG holds a byte and the pre-sleep function leaves it as
    it found it: when [goToSleep] comes to test [aw], SREG is what it was on
    entry, whatever the interrupt handler did to it.  Interrupts that were
    off before the call are off again. *)
Theorem goToSleep_restores_SREG :
  forall (code : fnptr -> machine -> machine) (isr : machine -> machine)
         (m : machine),
    byte (rd SREG (io m)) ->
    hook_keeps_reg code SREG (ps (AVRsleep m)) ->
    exists m4 t,
      sleep_and_restore code isr m = Some (tt, m4, t)
      /\ rd SREG (io m4) = rd SREG (io m)
      /\ goToSleep code isr m
         = Some (tt, after_call code (aw (AVRsleep m4)) m4,
                 t ++ call_log AfterWake (aw (AVRsleep m4))).
Proof.
  intros code isr m Hb Hk.
  destruct (sleep_and_restore_states code isr m)
    as (rs1 & rs2 & rs4 & H & R1 & _ & R4).
  cbv zeta in H, R4.
  eexists _, _. split; [exact H|]. split.
  - cbn [io]. rewrite (R4 SREG). cbn [woken].
    rewrite (after_call_keeps_reg code SREG _ _ Hk). cbn [io].
    rewrite (R1 SREG). cbn [powered_off]. apply u8_of_byte, Hb.
  - unfold goToSleep. eapply bind_run; [exact H | apply call_afterWake_run].
Qed.

(** X6.  Provided the pre-sleep function and the interrupt handler leave
    SMCR as they found it: when [goToSleep] comes to test [aw], the
    sleep-enable bit is clear and the SM field is what it was on entry; so
    after [setSleepMode] and one sleep the field still holds the mode
    [setSleepMode] selected. *)
Theorem goToSleep_disarms_and_keeps_mode :
  forall (code : fnptr -> machine -> machine) (isr : machine -> machine)
         (m : machine),
    hook_keeps_reg code SMCR (ps (AVRsleep m)) ->
    keeps_reg SMCR isr ->
    (exists m4 t,
        sleep_and_restore code isr m = Some (tt, m4, t)
        /\ Z.testbit (rd SMCR (io m4)) SE = false
        /\ SM_field (rd SMCR (io m4)) = SM_field (rd SMCR (io m)))
    /\ (forall (ARDUINO : bool) (sleepMode : sleepMode_t) (powerOffBits : powerMode_t),
          exists m4 t,
            (setSleepMode ARDUINO sleepMode powerOffBits ;;
             sleep_and_restore code isr) m = Some (tt, m4, t)
            /\ Z.testbit (rd SMCR (io m4)) SE = false
            /\ SM_field (rd SMCR (io m4))
               = sleepMode_value (if ARDUINO then arduino_mode sleepMode else sleepMode)).
Proof.
  intros code isr m Hk Hi.
  assert (G : forall m0, ps (AVRsleep m0) = ps (AVRsleep m) ->
              exists m4 t,
                sleep_and_restore code isr m0 = Some (tt, m4, t)
                /\ Z.testbit (rd SMCR (io m4)) SE = false
                /\ SM_field (rd SMCR (io m4)) = SM_field (rd SMCR (io m0))).
  { intros m0 Hps.
    destruct (sleep_and_restore_states code isr m0)
      as (rs1 & rs2 & rs4 & H & R1 & R2 & R4).
    cbv zeta in H, R2, R4. rewrite Hps in H, R2, R4.
    eexists _, _. split; [exact H|]. cbn [io].
    rewrite (R4 SMCR). cbn [woken].
    split; [apply SE_after_disable|].
    rewrite SM_field_sleep_disable, Hi. cbn [io].
    rewrite (R2 SMCR). cbn [asleep].
    rewrite SM_field_sleep_enable, (after_call_keeps_reg code SMCR _ _ Hk).
    cbn [io]. rewrite (R1 SMCR). reflexivity. }
  split; [apply G; reflexivity|].
  intros a sm bits.
  pose proof (setSleepMode_run a sm bits m) as Hs. cbv zeta in Hs.
  match type of Hs with _ = Some (_, ?m1, _) => set (m0 := m1) in * end.
  destruct (G m0 eq_refl) as (m4 & t & H & Hse & Hsm).
  eexists _, _. split; [exact (bind_run _ _ _ _ _ _ _ _ _ Hs H)|].
  split; [exact Hse|]. rewrite Hsm. unfold m0. cbn [io].
  rewrite rd_wr_same. apply SM_field_select.
Qed.

(** X7.  Provided the pre-sleep function and the interrupt handler leave
    ACSR as they found it: with bit 8 of [powerBits] set the comparator's
    disable bit ACD is still set when [goToSleep] comes to test [aw] (the
    comparator is not switched on again), and with the bit clear ACSR is
    what it was on entry. *)
Theorem goToSleep_leaves_comparator_off :
  forall (code : fnptr -> machine -> machine) (isr : machine -> machine)
         (m : machine),
    hook_keeps_reg code ACSR (ps (AVRsleep m)) ->
    keeps_reg ACSR isr ->
    exists m4 t,
      sleep_and_restore code isr m = Some (tt, m4, t)
      /\ if Z.testbit (powerBits (AVRsleep m)) PM_AC_OFF
         then Z.testbit (rd ACSR (io m4)) ACD = true
         else rd ACSR (io m4) = rd ACSR (io m).
Proof.
  intros code isr m Hk Hi.
  destruct (sleep_and_restore_states code isr m)
    as (rs1 & rs2 & rs4 & H & R1 & R2 & R4).
  cbv zeta in H, R2, R4.
  eexists _, _. split; [exact H|]. cbn [io].
  rewrite (R4 ACSR). cbn [woken]. rewrite Hi. cbn [io].
  rewrite (R2 ACSR). cbn [asleep].
  rewrite (after_call_keeps_reg code ACSR _ _ Hk). cbn [io].
  rewrite (R1 ACSR). cbn [powered_off].
  rewrite truthy_flag by (cbv; discriminate).
  destruct (Z.testbit (powerBits (AVRsleep m)) PM_AC_OFF);
    [apply ACD_after_disable | reflexivity].
Qed.

(** X8.  [goToSleep] never uses the [copyPRR] of an earlier sleep: whatever
    the member holds on entry, result and log are the same. *)
Theorem goToSleep_ignores_stale_copyPRR :
  forall (code : fnptr -> machine -> machine) (isr : machine -> machine)
         (m : machine) (stale : Z),
    goToSleep code isr (mkMachine (io m) (set_copyPRR stale (AVRsleep m)))
    = goToSleep code isr m.
Proof.
  intros code isr m stale.
  assert (E : power_off_peripherals (mkMachine (io m) (set_copyPRR stale (AVRsleep m)))
              = power_off_peripherals m).
  { unfold power_off_peripherals. cbv [bind read assign member write].
    cbn [io AVRsleep powerBits set_copyPRR ps aw copyPRR]. reflexivity. }
  unfold goToSleep, sleep_and_restore, bind. rewrite E. reflexivity.
Qed.

(** ** More on goToSleep: the log and the object *)

(** X9.  [goToSleep] never calls through a null pointer, whatever the
    sketch's functions and the interrupt handler do to the registers and to
    the object on the way: each pointer is tested right before its call. *)
Theorem goToSleep_never_calls_null :
  forall (code : fnptr -> machine -> machine) (isr : machine -> machine)
         (m : machine),
    exists m' t,
      goToSleep code isr m = Some (tt, m', t)
      /\ forallb call_target_ok t = true.
Proof.
  intros code isr m.
  destruct (goToSleep_run code isr m) as (m2 & m4 & _ & Hg & _).
  cbv zeta in Hg. eexists _, _. split; [exact Hg|].
  log_cases; cbn [app forallb call_target_ok andb];
    repeat match goal with
           | H : N.eqb _ nullptr = false |- _ => rewrite H; clear H
           end;
    reflexivity.
Qed.

(** X10.  The sleep sequence is the same in every call, whatever the sketch
    does: [cli] and [sleep_enable], then at most [sleep_bod_disable], then
    [sei], the sleep instruction, [sleep_disable] and the two restoring
    writes, in one block.  Before the block the log holds none of these
    macros, and behind it at most the call through [aw]. *)
Theorem goToSleep_sleep_sequence :
  forall (code : fnptr -> machine -> machine) (isr : machine -> machine)
         (m : machine),
    exists m' pre bod p s post,
      goToSleep code isr m
        = Some (tt, m',
                pre ++ [EvCli; EvSleepEnable] ++ bod
                    ++ [EvSei; EvSleepCpu; EvSleepDisable; EvWrite PRR p; EvWrite SREG s]
                    ++ post)
      /\ (bod = [] \/ bod = [EvSleepBodDisable])
      /\ count is_cli pre = 0%nat
      /\ count is_sei pre = 0%nat
      /\ count is_sleep_enable pre = 0%nat
      /\ count is_sleep_cpu pre = 0%nat
      /\ count (is_write SREG) pre = 0%nat
      /\ count (is_call AfterWake) post = length post.
Proof.
  intros code isr m.
  destruct (goToSleep_run code isr m) as (m2 & m4 & _ & Hg & _).
  cbv zeta in Hg.
  exists (after_call code (aw (AVRsleep m4)) m4),
         (EvWrite PRR (Z.land (powerBits (AVRsleep m)) 0x00ff)
            :: ac_log (powerBits (AVRsleep m)) (rd ACSR (io m))
            ++ wdt_log (powerBits (AVRsleep m)) (rd MCUSR (io m))
            ++ call_log PreSleep (ps (AVRsleep m))),
         (bod_log (powerBits (AVRsleep m2))),
         (u8 (copyPRR (AVRsleep m4))), (u8 (rd SREG (io m2))),
         (call_log AfterWake (aw (AVRsleep m4))).
  split.
  - rewrite Hg. unfold restore_log. f_equal. f_equal. log_assoc. reflexivity.
  - split; [unfold bod_log;
            destruct (truthy (Z.land (powerBits (AVRsleep m2)) (Z.shiftl 1 PM_BOD_OFF)));
            [right|left]; reflexivity|].
    split; [log_cases; reflexivity|].
    split; [log_cases; reflexivity|].
    split; [log_cases; reflexivity|].
    split; [log_cases; reflexivity|].
    split; log_cases; reflexivity.
Qed.

(** X11.  Provided the sketch's two functions and the interrupt handler
    leave the object alone, a whole [goToSleep] changes nothing of the
    configuration: [ps], [aw] and [powerBits] are as before, and [copyPRR]
    holds the PRR found on entry. *)
Theorem goToSleep_keeps_configuration :
  forall (code : fnptr -> machine -> machine) (isr : machine -> machine)
         (m : machine),
    quiet code (ps (AVRsleep m)) ->
    keeps_object isr ->
    quiet code (aw (AVRsleep m)) ->
    exists m' t,
      goToSleep code isr m = Some (tt, m', t)
      /\ AVRsleep m'
         = mkAVR_sleep (ps (AVRsleep m)) (aw (AVRsleep m)) (rd PRR (io m))
                       (powerBits (AVRsleep m)).
Proof.
  intros code isr m Hq Hk Ha.
  destruct (goToSleep_run code isr m) as (m2 & m4 & _ & Hg & _ & H2 & H4).
  cbv zeta in Hg. specialize (H2 Hq). specialize (H4 Hk).
  assert (Hobj : AVRsleep m4 = set_copyPRR (rd PRR (io m)) (AVRsleep m))
    by congruence.
  eexists _, _. split; [exact Hg|].
  rewrite after_call_quiet; [exact Hobj|].
  rewrite Hobj. exact Ha.
Qed.

(** X12.  On an object fresh from the constructor, and provided the
    interrupt handler leaves the object alone, [goToSleep] calls nothing and
    touches neither comparator, watchdog nor brown-out detector; it sleeps
    with PRR at zero, that is with every PRR clock running, and then puts
    PRR and SREG back. *)
Theorem goToSleep_on_fresh_object :
  forall (code : fnptr -> machine -> machine) (isr : machine -> machine)
         (rs : registers),
    keeps_object isr ->
    exists m',
      goToSleep code isr (mkMachine rs AVR_sleep_new)
      = Some (tt, m',
              [EvWrite PRR 0; EvCli; EvSleepEnable; EvSei; EvSleepCpu;
               EvSleepDisable; EvWrite PRR (u8 (rd PRR rs));
               EvWrite SREG (u8 (rd SREG rs))])
      /\ AVRsleep m' = mkAVR_sleep nullptr nullptr (rd PRR rs) PM_NONE.
Proof.
  intros code isr rs Hk.
  destruct (sleep_and_restore_states code isr (mkMachine rs AVR_sleep_new))
    as (rs1 & rs2 & rs4 & H & R1 & _ & _).
  cbv zeta in H.
  change (ps (AVRsleep (mkMachine rs AVR_sleep_new))) with nullptr in H.
  change (after_call code nullptr ?x) with x in H.
  cbn [io AVRsleep] in H. rewrite Hk in H. cbn [AVRsleep] in H.
  rewrite (R1 SREG) in H.
  pose proof (bind_run _ (fun _ => call_afterWake code) _ _ _ _ _ _ _ H
                (call_afterWake_run code _)) as G.
  cbn [AVRsleep io aw copyPRR powerBits ps set_copyPRR AVR_sleep_new] in G.
  change (after_call code nullptr ?x) with x in G.
  eexists. split; [exact G | reflexivity].
Qed.

(** ** Attaching, configuring and sleeping *)

Lemma goToSleep_call_shape
    (code : fnptr -> machine -> machine) (isr : machine -> machine) (m : machine) :
  quiet code (ps (AVRsleep m)) ->
  keeps_object isr ->
  exists m' pre mid v,
    goToSleep code isr m
      = Some (tt, m',
              pre ++ call_log PreSleep (ps (AVRsleep m))
                  ++ EvCli :: mid
                  ++ EvWrite SREG v :: call_log AfterWake (aw (AVRsleep m)))
    /\ count (is_call PreSleep) (pre ++ mid) = 0%nat
    /\ count (is_call AfterWake) (pre ++ mid) = 0%nat.
Proof.
  intros Hq Hk.
  destruct (goToSleep_run code isr m) as (m2 & m4 & _ & Hg & _ & H2 & H4).
  cbv zeta in Hg. specialize (H2 Hq). specialize (H4 Hk).
  rewrite H4, H2 in Hg. cbn [powerBits aw copyPRR set_copyPRR] in Hg.
  exists (after_call code (aw (AVRsleep m)) m4),
         (EvWrite PRR (Z.land (powerBits (AVRsleep m)) 0x00ff)
            :: ac_log (powerBits (AVRsleep m)) (rd ACSR (io m))
            ++ wdt_log (powerBits (AVRsleep m)) (rd MCUSR (io m))),
         (EvSleepEnable :: bod_log (powerBits (AVRsleep m))
            ++ [EvSei; EvSleepCpu; EvSleepDisable; EvWrite PRR (u8 (rd PRR (io m)))]),
         (u8 (rd SREG (io m2))).
  split.
  - rewrite Hg. unfold restore_log. f_equal. f_equal. log_assoc. reflexivity.
  - split; log_cases; reflexivity.
Qed.

(** X13.  Provided the function at [f] and the interrupt handler leave the
    object alone: after [attachPreSleep f] and [attachWakeUp g], in either
    order, [goToSleep] calls [f] once before [cli] and [g] once behind the
    write that restores SREG, whatever was registered before; a null [f] or
    [g] takes the call away. *)
Theorem attach_then_goToSleep :
  forall (code : fnptr -> machine -> machine) (isr : machine -> machine)
         (m : machine) (f g : fnptr),
    quiet code f ->
    keeps_object isr ->
    exists m' pre mid v,
      let t := pre ++ (if N.eqb f nullptr then [] else [EvCall PreSleep f])
                   ++ EvCli :: mid
                   ++ EvWrite SREG v
                   :: (if N.eqb g nullptr then [] else [EvCall AfterWake g]) in
      (attachPreSleep f ;; attachWakeUp g ;; goToSleep code isr) m = Some (tt, m', t)
      /\ (attachWakeUp g ;; attachPreSleep f ;; goToSleep code isr) m = Some (tt, m', t)
      /\ count (is_call PreSleep) (pre ++ mid) = 0%nat
      /\ count (is_call AfterWake) (pre ++ mid) = 0%nat.
Proof.
  intros code isr m f g Hq Hk.
  set (m0 := mkMachine (io m)
               (mkAVR_sleep f g (copyPRR (AVRsleep m)) (powerBits (AVRsleep m)))).
  destruct (goToSleep_call_shape code isr m0 Hq Hk) as (m' & pre & mid & v & Hg & Hc).
  exists m', pre, mid, v. cbv zeta. unfold call_log in Hg. cbn [m0 AVRsleep ps aw] in Hg.
  split; [|split; [|exact Hc]].
  - change (attachPreSleep f ;; attachWakeUp g ;; goToSleep code isr)
      with (bind (attachPreSleep f)
              (fun _ => bind (attachWakeUp g) (fun _ => goToSleep code isr))).
    unfold bind at 1 2. cbn [attachPreSleep attachWakeUp assign io AVRsleep].
    change (mkMachine (io m) (set_aw g (set_ps f (AVRsleep m)))) with m0.
    rewrite Hg. reflexivity.
  - change (attachWakeUp g ;; attachPreSleep f ;; goToSleep code isr)
      with (bind (attachWakeUp g)
              (fun _ => bind (attachPreSleep f) (fun _ => goToSleep code isr))).
    unfold bind at 1 2. cbn [attachPreSleep attachWakeUp assign io AVRsleep].
    change (mkMachine (io m) (set_ps f (set_aw g (AVRsleep m)))) with m0.
    rewrite Hg. reflexivity.
Qed.

(** X14.  [PM_PRR_OFF] is the seven PRR enumerators together, and
    [PM_EVERYTHING_OFF] is [PM_PRR_OFF] with bits 8, 9 and 10; but joining
    [PM_PRR_OFF] with the enumerators [PM_AC_OFF], [PM_BOD_OFF] and
    [PM_WDT_OFF] gives [PM_PRR_OFF] again.  So, provided the pre-sleep
    function leaves the object alone, [goToSleep] after [setSleepMode] with
    [PM_EVERYTHING_OFF] gates the PRR clocks and runs the comparator,
    brown-out and watchdog sequences, while with the enumerators joined by
    hand it gates the same clocks and runs none of the three. *)
Theorem everything_off_is_not_the_enumerators_joined :
  forall (code : fnptr -> machine -> machine) (isr : machine -> machine)
         (m : machine) (ARDUINO : bool) (sleepMode : sleepMode_t),
    quiet code (ps (AVRsleep m)) ->
    PM_PRR_OFF
      = Z.lor PM_TWI_OFF (Z.lor PM_TIMER2_OFF (Z.lor PM_TIMER0_OFF (Z.lor PM_TIMER1_OFF
          (Z.lor PM_SPI_OFF (Z.lor PM_USART_OFF PM_ADC_OFF)))))
    /\ PM_EVERYTHING_OFF
      = Z.lor PM_PRR_OFF (Z.lor (Z.shiftl 1 PM_AC_OFF)
          (Z.lor (Z.shiftl 1 PM_BOD_OFF) (Z.shiftl 1 PM_WDT_OFF)))
    /\ Z.lor PM_PRR_OFF (Z.lor PM_AC_OFF (Z.lor PM_BOD_OFF PM_WDT_OFF)) = PM_PRR_OFF
    /\ (exists m' v t,
          (setSleepMode ARDUINO sleepMode PM_EVERYTHING_OFF ;; goToSleep code isr) m
            = Some (tt, m', EvSetSleepMode v :: EvWrite PRR PM_PRR_OFF :: t)
          /\ count is_ac t = 1%nat
          /\ count is_bod t = 1%nat
          /\ count is_wdt t = 3%nat)
    /\ (exists m' v t,
          (setSleepMode ARDUINO sleepMode
             (Z.lor PM_PRR_OFF (Z.lor PM_AC_OFF (Z.lor PM_BOD_OFF PM_WDT_OFF))) ;;
           goToSleep code isr) m
            = Some (tt, m', EvSetSleepMode v :: EvWrite PRR PM_PRR_OFF :: t)
          /\ count is_ac t = 0%nat
          /\ count is_bod t = 0%nat
          /\ count is_wdt t = 0%nat).
Proof.
  intros code isr m a sm Hq.
  split; [reflexivity|]. split; [reflexivity|]. split; [reflexivity|].
  split.
  - pose proof (setSleepMode_run a sm PM_EVERYTHING_OFF m) as Hs. cbv zeta in Hs.
    match type of Hs with _ = Some (_, ?m1, _) => set (m0 := m1) in * end.
    destruct (goToSleep_run code isr m0) as (m2 & m4 & _ & Hg & _ & H2 & _).
    cbv zeta in Hg. rewrite (H2 Hq) in Hg.
    cbn [powerBits set_copyPRR AVRsleep m0 set_powerBits] in Hg.
    eexists _, _, _. rewrite (bind_run _ _ _ _ _ _ _ _ _ Hs Hg).
    split; [unfold restore_log; cbn [app]; reflexivity|].
    unfold ac_log, wdt_log, bod_log.
    change (truthy (Z.land PM_EVERYTHING_OFF (Z.shiftl 1 PM_AC_OFF))) with true.
    change (truthy (Z.land PM_EVERYTHING_OFF (Z.shiftl 1 PM_WDT_OFF))) with true.
    change (truthy (Z.land PM_EVERYTHING_OFF (Z.shiftl 1 PM_BOD_OFF))) with true.
    cbn [app].
    split; [|split]; log_cases; reflexivity.
  - change (Z.lor PM_PRR_OFF (Z.lor PM_AC_OFF (Z.lor PM_BOD_OFF PM_WDT_OFF)))
      with PM_PRR_OFF.
    pose proof (setSleepMode_run a sm PM_PRR_OFF m) as Hs. cbv zeta in Hs.
    match type of Hs with _ = Some (_, ?m1, _) => set (m0 := m1) in * end.
    destruct (goToSleep_run code isr m0) as (m2 & m4 & _ & Hg & _ & H2 & _).
    cbv zeta in Hg. rewrite (H2 Hq) in Hg.
    cbn [powerBits set_copyPRR AVRsleep m0 set_powerBits] in Hg.
    eexists _, _, _. rewrite (bind_run _ _ _ _ _ _ _ _ _ Hs Hg).
    split; [unfold restore_log; cbn [app]; reflexivity|].
    change (ac_log PM_PRR_OFF (rd ACSR (io m0))) with (@nil event).
    change (wdt_log PM_PRR_OFF (rd MCUSR (io m0))) with (@nil event).
    change (bod_log PM_PRR_OFF) with (@nil event).
    cbn [app].
    split; [|split]; log_cases; reflexivity.
Qed.

(** X15.  What lines 94-98 leave in the watchdog's registers.  With bit 10
    of [powerBits] set, MCUSR keeps its old WDRF bit and loses every other
    reset flag, and WDTCSR is zero; with the bit clear both registers are
    untouched. *)
Theorem power_off_watchdog_registers :
  forall (m : machine),
    exists m1 t,
      power_off_peripherals m = Some (tt, m1, t)
      /\ if Z.testbit (powerBits (AVRsleep m)) PM_WDT_OFF
         then rd MCUSR (io m1) = Z.land (u8 (rd MCUSR (io m))) (Z.shiftl 1 WDRF)
              /\ rd WDTCSR (io m1) = 0
         else rd MCUSR (io m1) = rd MCUSR (io m)
              /\ rd WDTCSR (io m1) = rd WDTCSR (io m).
Proof.
  intros m. destruct (power_off_peripherals_state m) as (rs & H & R).
  eexists _, _. split; [exact H|]. cbn [io].
  rewrite (R MCUSR), (R WDTCSR). cbn [powered_off].
  rewrite truthy_flag by (cbv; discriminate).
  destruct (Z.testbit (powerBits (AVRsleep m)) PM_WDT_OFF); split; try reflexivity.
  unfold u8. rewrite <- !Z.land_assoc. reflexivity.
Qed.

(** ** The further theorems at work on the example sketch *)

Lemma goToSleep_restores_SREG_witness :
  byte (rd SREG (io ready_to_sleep))
  /\ hook_keeps_reg clocks_on_sketch SREG (ps (AVRsleep ready_to_sleep))
  /\ exists m4 t,
       sleep_and_restore clocks_on_sketch marking_isr ready_to_sleep = Some (tt, m4, t)
       /\ rd SREG (io m4) = 0x80
       /\ goToSleep clocks_on_sketch marking_isr ready_to_sleep
          = Some (tt, after_call clocks_on_sketch (aw (AVRsleep m4)) m4,
                  t ++ call_log AfterWake (aw (AVRsleep m4))).
Proof.
  assert (Hb : byte (rd SREG (io ready_to_sleep))) by (unfold byte; cbn; lia).
  assert (Hk : hook_keeps_reg clocks_on_sketch SREG (ps (AVRsleep ready_to_sleep)))
    by (right; intros m; reflexivity).
  split; [exact Hb|]. split; [exact Hk|].
  exact (goToSleep_restores_SREG clocks_on_sketch marking_isr ready_to_sleep Hb Hk).
Defined.

Lemma goToSleep_disarms_and_keeps_mode_witness :
  hook_keeps_reg clocks_on_sketch SMCR (ps (AVRsleep ready_to_sleep))
  /\ keeps_reg SMCR marking_isr
  /\ exists m4 t,
       sleep_and_restore clocks_on_sketch marking_isr ready_to_sleep = Some (tt, m4, t)
       /\ Z.testbit (rd SMCR (io m4)) SE = false
       /\ SM_field (rd SMCR (io m4)) = SM_field (rd SMCR (io ready_to_sleep)).
Proof.
  assert (Hk : hook_keeps_reg clocks_on_sketch SMCR (ps (AVRsleep ready_to_sleep)))
    by (right; intros m; reflexivity).
  assert (Hi : keeps_reg SMCR marking_isr) by (intros m; reflexivity).
  split; [exact Hk|]. split; [exact Hi|].
  exact (proj1 (goToSleep_disarms_and_keeps_mode
                  clocks_on_sketch marking_isr ready_to_sleep Hk Hi)).
Defined.

Lemma goToSleep_leaves_comparator_off_witness :
  hook_keeps_reg clocks_on_sketch ACSR (ps (AVRsleep ready_to_sleep))
  /\ keeps_reg ACSR marking_isr
  /\ exists m4 t,
       sleep_and_restore clocks_on_sketch marking_isr ready_to_sleep = Some (tt, m4, t)
       /\ Z.testbit (rd ACSR (io m4)) ACD = true.
Proof.
  assert (Hk : hook_keeps_reg clocks_on_sketch ACSR (ps (AVRsleep ready_to_sleep)))
    by (right; intros m; reflexivity).
  assert (Hi : keeps_reg ACSR marking_isr) by (intros m; reflexivity).
  split; [exact Hk|]. split; [exact Hi|].
  exact (goToSleep_leaves_comparator_off
           clocks_on_sketch marking_isr ready_to_sleep Hk Hi).
Defined.

Lemma goToSleep_keeps_configuration_witness :
  quiet clocks_on_sketch (ps (AVRsleep ready_to_sleep))
  /\ keeps_object marking_isr
  /\ quiet clocks_on_sketch (aw (AVRsleep ready_to_sleep))
  /\ exists m' t,
       goToSleep clocks_on_sketch marking_isr ready_to_sleep = Some (tt, m', t)
       /\ AVRsleep m' = mkAVR_sleep 1%N 2%N 0x01 PM_EVERYTHING_OFF.
Proof.
  assert (Hq : quiet clocks_on_sketch (ps (AVRsleep ready_to_sleep)))
    by (right; intros m; reflexivity).
  assert (Hk : keeps_object marking_isr) by (intros m; reflexivity).
  assert (Ha : quiet clocks_on_sketch (aw (AVRsleep ready_to_sleep)))
    by (right; intros m; reflexivity).
  split; [exact Hq|]. split; [exact Hk|]. split; [exact Ha|].
  exact (goToSleep_keeps_configuration
           clocks_on_sketch marking_isr ready_to_sleep Hq Hk Ha).
Defined.

Lemma goToSleep_on_fresh_object_witness :
  keeps_object marking_isr
  /\ exists m',
       goToSleep clocks_on_sketch marking_isr
         (mkMachine (io ready_to_sleep) AVR_sleep_new)
       = Some (tt, m',
               [EvWrite PRR 0; EvCli; EvSleepEnable; EvSei; EvSleepCpu;
                EvSleepDisable; EvWrite PRR 0x01; EvWrite SREG 0x80])
       /\ AVRsleep m' = mkAVR_sleep nullptr nullptr 0x01 PM_NONE.
Proof.
  assert (Hk : keeps_object marking_isr) by (intros m; reflexivity).
  split; [exact Hk|].
  exact (goToSleep_on_fresh_object
           clocks_on_sketch marking_isr (io ready_to_sleep) Hk).
Defined.

Lemma attach_then_goToSleep_witness :
  quiet clocks_on_sketch 3%N
  /\ keeps_object marking_isr
  /\ exists m' pre mid v,
       (attachPreSleep 3%N ;; attachWakeUp nullptr ;;
        goToSleep clocks_on_sketch marking_isr) ready_to_sleep
         = Some (tt, m', pre ++ [EvCall PreSleep 3%N] ++ EvCli :: mid ++ [EvWrite SREG v])
       /\ (attachWakeUp nullptr ;; attachPreSleep 3%N ;;
           goToSleep clocks_on_sketch marking_isr) ready_to_sleep
         = Some (tt, m', pre ++ [EvCall PreSleep 3%N] ++ EvCli :: mid ++ [EvWrite SREG v])
       /\ count (is_call PreSleep) (pre ++ mid) = 0%nat
       /\ count (is_call AfterWake) (pre ++ mid) = 0%nat.
Proof.
  assert (Hq : quiet clocks_on_sketch 3%N) by (right; intros m; reflexivity).
  assert (Hk : keeps_object marking_isr) by (intros m; reflexivity).
  split; [exact Hq|]. split; [exact Hk|].
  exact (attach_then_goToSleep
           clocks_on_sketch marking_isr ready_to_sleep 3%N nullptr Hq Hk).
Defined.

Lemma everything_off_is_not_the_enumerators_joined_witness :
  quiet clocks_on_sketch (ps (AVRsleep ready_to_sleep))
  /\ exists m' v t,
       (setSleepMode true SM_POWER_DOWN
          (Z.lor PM_PRR_OFF (Z.lor PM_AC_OFF (Z.lor PM_BOD_OFF PM_WDT_OFF))) ;;
        goToSleep clocks_on_sketch marking_isr) ready_to_sleep
         = Some (tt, m', EvSetSleepMode v :: EvWrite PRR PM_PRR_OFF :: t)
       /\ count is_ac t = 0%nat
       /\ count is_bod t = 0%nat
       /\ count is_wdt t = 0%nat.
Proof.
  assert (Hq : quiet clocks_on_sketch (ps (AVRsleep ready_to_sleep)))
    by (right; intros m; reflexivity).
  split; [exact Hq|].
  exact (proj2 (proj2 (proj2 (proj2
           (everything_off_is_not_the_enumerators_joined
              clocks_on_sketch marking_isr ready_to_sleep true SM_POWER_DOWN Hq))))).
Defined.
